(** * gotest: a single HTTP(S) fetch with an optional dial-address override

    Shallow embedding of [main.go].  The program's own functions
    ([withDialOverride], [dialOverrideFromContext], the [DialContext]
    closure of [sharedTransport], [loggingTransport.RoundTrip], [pickPort]
    and [main]) are translated from the source.  The Go standard library
    they call ([strings], [net], [net/url], [context], [net/http]) is
    modelled only as far as the program observes it; each such definition
    says so in its comment.  The URL parser and the network are parameters. *)

From Stdlib Require Import Bool Arith ZArith NArith Lia List Permutation Ascii String.
Import ListNotations.

Local Open Scope string_scope.

(** ** Go strings: byte sequences *)

Module strings.

Definition isUpperByte (c : ascii) : bool :=
  (65 <=? nat_of_ascii c)%nat && (nat_of_ascii c <=? 90)%nat.

Definition lowerByte (c : ascii) : ascii :=
  if isUpperByte c then ascii_of_nat (nat_of_ascii c + 32) else c.

(** [strings.ToLower] on the ASCII range: 'A'..'Z' are shifted to
    'a'..'z', every other byte is kept.  (Go maps runes above 0x7f by the
    Unicode tables; none of them lowers to a letter of "http" or "https".) *)
Fixpoint ToLower (s : string) : string :=
  match s with
  | EmptyString => EmptyString
  | String c r => String (lowerByte c) (ToLower r)
  end.

(** [strings.IndexByte(s, c) >= 0]. *)
Fixpoint ContainsByte (c : ascii) (s : string) : bool :=
  match s with
  | EmptyString => false
  | String a r => Ascii.eqb a c || ContainsByte c r
  end.

(** [i := strings.LastIndexByte(s, c)]: [None] when [i == -1], otherwise
    the two slices [s[:i]] and [s[i:]] (the second starts with [c]). *)
Fixpoint CutLastByte (c : ascii) (s : string) : option (string * string) :=
  match s with
  | EmptyString => None
  | String a r =>
      match CutLastByte c r with
      | Some (pre, suf) => Some (String a pre, suf)
      | None => if Ascii.eqb a c then Some (EmptyString, s) else None
      end
  end.

Definition HasPrefix (s p : string) : bool := String.prefix p s.

Fixpoint HasSuffixByte (s : string) (c : ascii) : bool :=
  match s with
  | EmptyString => false
  | String a EmptyString => Ascii.eqb a c
  | String _ r => HasSuffixByte r c
  end.

(** [s[1:]] (and the empty string for the empty string). *)
Definition DropFirst (s : string) : string :=
  match s with
  | EmptyString => EmptyString
  | String _ r => r
  end.

(** [s[:len(s)-1]] (and the empty string for the empty string). *)
Fixpoint DropLast (s : string) : string :=
  match s with
  | EmptyString => EmptyString
  | String _ EmptyString => EmptyString
  | String a r => String a (DropLast r)
  end.

(** [strings.TrimSuffix(s, string(c))]. *)
Definition TrimSuffixByte (s : string) (c : ascii) : string :=
  if HasSuffixByte s c then DropLast s else s.

Definition isDigit (c : ascii) : bool :=
  (48 <=? nat_of_ascii c)%nat && (nat_of_ascii c <=? 57)%nat.

Fixpoint allDigits (s : string) : bool :=
  match s with
  | EmptyString => true
  | String c r => isDigit c && allDigits r
  end.

End strings.

(** ** net/url: the parsed URL and its host accessors *)

Module url.

(** The fields of [url.URL] the program and the transport read. *)
Record URL := { Scheme : string; Host : string; Path : string }.

(** [validOptionalPort]: empty, or a colon followed by digits only. *)
Definition validOptionalPort (port : string) : bool :=
  match port with
  | EmptyString => true
  | String c r => Ascii.eqb c ":" && strings.allDigits r
  end.

Definition stripBrackets (host : string) : string :=
  if strings.HasPrefix host "[" && strings.HasSuffixByte host "]"
  then strings.DropLast (strings.DropFirst host)
  else host.

(** [splitHostPort]: the port is what follows the last colon if that is
    empty or numeric; square brackets around the host are removed. *)
Definition splitHostPort (hostPort : string) : string * string :=
  match strings.CutLastByte ":" hostPort with
  | Some (pre, suf) =>
      if validOptionalPort suf
      then (stripBrackets pre, strings.DropFirst suf)
      else (stripBrackets hostPort, EmptyString)
  | None => (stripBrackets hostPort, EmptyString)
  end.

Definition Hostname (u : URL) : string := fst (splitHostPort (Host u)).
Definition Port (u : URL) : string := snd (splitHostPort (Host u)).

End url.
Import url.

(** ** time, net: durations, addresses and the dialer *)

Module time.
(** A [time.Duration] counts nanoseconds. *)
Definition Duration := Z.
Definition Millisecond : Duration := 1000000%Z.
Definition Second : Duration := (1000 * Millisecond)%Z.
End time.

Module net.

(** [net.JoinHostPort]: a host that contains a colon is bracketed. *)
Definition JoinHostPort (host port : string) : string :=
  if strings.ContainsByte ":" host
  then "[" ++ host ++ "]:" ++ port
  else host ++ ":" ++ port.

(** What answers a TLS handshake and a request on an accepted connection:
    the names its certificate is valid for, and its reply to a request
    (method, Host header, path) or a broken exchange. *)
Record Response := {
  Status : string;
  Proto : string;
  Header : list (string * list string);
  BodyData : string;
  BodyReadErr : option string
}.

Record Server := {
  certValidFor : string -> bool;
  serve : string -> string -> string -> Response + string
}.

(** How the network reacts to a connection attempt to an address: no
    answer at all, a refusal, or an accepted connection, each after some
    nanoseconds. *)
Inductive Endpoint :=
| Silent
| Refuses (after : time.Duration)
| Accepts (after : time.Duration) (srv : Server).

(** The network, by dial network ("tcp") and address ("host:port"). *)
Definition Network := string -> string -> Endpoint.

Record Conn := { RemoteAddr : string; peer : Server }.

Inductive DialError := IOTimeout | ConnectionRefused.

(** The outcome of a dial and the time it took; [DialBlocked] is a dial
    that never returns. *)
Inductive DialResult :=
| Connected (c : Conn) (elapsed : time.Duration)
| DialFailed (reason : DialError) (addr : string) (elapsed : time.Duration)
| DialBlocked.

(** [net.Dialer]: [Timeout] is the maximum time a dial waits for the
    connection to be established; zero means no timeout. *)
Record Dialer := { Timeout : time.Duration }.

Definition expired (d : Dialer) (after : time.Duration) : bool :=
  (0 <? Timeout d)%Z && (Timeout d <=? after)%Z.

(** [Dialer.DialContext] for a context without deadline and an address
    the dialer can split into host and numeric port.  (An address without
    port, with a port out of range or with a stray bracket is refused at
    once with an address error and never reaches the network; that case is
    not part of this model.) *)
Definition Dialer_DialContext (nw : Network) (d : Dialer)
    (network addr : string) : DialResult :=
  match nw network addr with
  | Silent =>
      if (0 <? Timeout d)%Z then DialFailed IOTimeout addr (Timeout d)
      else DialBlocked
  | Refuses after =>
      if expired d after then DialFailed IOTimeout addr (Timeout d)
      else DialFailed ConnectionRefused addr after
  | Accepts after srv =>
      if expired d after then DialFailed IOTimeout addr (Timeout d)
      else Connected {| RemoteAddr := addr; peer := srv |} after
  end.

End net.

(** ** context: request-scoped values *)

(** Context keys are compared with [==].  The program declares the
    unexported type [dialOverrideKey]; [foreignKey] stands for the keys of
    any other package. *)
Inductive Key :=
| dialOverrideKey
| foreignKey (n : nat).

Definition Key_eqb (a b : Key) : bool :=
  match a, b with
  | dialOverrideKey, dialOverrideKey => true
  | foreignKey n, foreignKey m => Nat.eqb n m
  | _, _ => false
  end.

(** Values of type [any]: [nil], a string, or a value of another type. *)
Inductive any :=
| AnyNil
| AnyString (s : string)
| AnyOther (n : nat).

Module context.

(** A context is the background context or a pointer to a [valueCtx]. *)
Inductive Context :=
| Background
| Ref (h : nat).

Record valueCtx := { parent : Context; key : Key; val : any }.

(** The allocated [valueCtx] nodes, newest first; [Ref h] points to the
    node allocated when [h] nodes existed. *)
Definition Heap := list valueCtx.

(** [context.WithValue] allocates a node and never touches an older one. *)
Definition WithValue (hp : Heap) (parent : Context) (k : Key) (v : any)
  : Heap * Context :=
  ({| parent := parent; key := k; val := v |} :: hp, Ref (List.length hp)).

(** [ctx.Value(k)]: walk up the parents to the first node with key [k];
    [nil] at the background context. *)
Fixpoint Value (hp : Heap) (c : Context) (k : Key) : any :=
  match hp with
  | [] => AnyNil
  | n :: older =>
      match c with
      | Background => AnyNil
      | Ref h =>
          if Nat.eqb h (List.length older)
          then if Key_eqb (key n) k then val n else Value older (parent n) k
          else Value older c k
      end
  end.

(** The context points into the heap. *)
Definition allocated (hp : Heap) (c : Context) : Prop :=
  match c with
  | Background => True
  | Ref h => (h < List.length hp)%nat
  end.

(** Some node on the way from [c] to the background has key [k]. *)
Fixpoint carries (hp : Heap) (c : Context) (k : Key) : bool :=
  match hp with
  | [] => false
  | n :: older =>
      match c with
      | Background => false
      | Ref h =>
          if Nat.eqb h (List.length older)
          then Key_eqb (key n) k || carries older (parent n) k
          else carries older c k
      end
  end.

End context.

(** ** io, net/http: requests, the transport and its round trip *)

Module io.
(** [io.ReadAll] on a response body. *)
Definition ReadAll (r : net.Response) : string + string :=
  match net.BodyReadErr r with
  | Some err => inr err
  | None => inl (net.BodyData r)
  end.
End io.

Module http.

Record Request := {
  Method : string;
  URL : url.URL;
  Host : string;
  ctx : context.Context
}.

(** [removeEmptyPort]: "host:" becomes "host". *)
Definition removeEmptyPort (host : string) : string :=
  strings.TrimSuffixByte host ":".

(** [http.NewRequest(method, url, nil)] for a valid method: the URL is
    parsed, the request carries the background context and the URL's host
    as its Host. *)
Definition NewRequest (parse : string -> url.URL + string)
    (method urlStr : string) : Request + string :=
  match parse urlStr with
  | inr err => inr err
  | inl u =>
      let u := {| url.Scheme := url.Scheme u;
                  url.Host := removeEmptyPort (url.Host u);
                  url.Path := url.Path u |} in
      inl {| Method := method; URL := u; Host := url.Host u;
             ctx := context.Background |}
  end.

(** [Request.WithContext]: a copy of the request with its context
    replaced. *)
Definition WithContext (r : Request) (c : context.Context) : Request :=
  {| Method := Method r; URL := URL r; Host := Host r; ctx := c |}.

Inductive RoundTripError :=
| UnsupportedProtocolScheme (scheme : string)
| NoHostInRequestURL
| DialFailure (reason : net.DialError) (addr : string)
| TLSVerificationFailed (serverName : string)
| ExchangeFailed (err : string).

Inductive RoundTripResult :=
| RTResponse (resp : net.Response)
| RTError (err : RoundTripError)
| RTBlocked.

(** The [http.RoundTripper] interface. *)
Definition RoundTripper := context.Heap -> Request -> RoundTripResult.

Record TLSConfig := { InsecureSkipVerify : bool; ServerName : string }.

Definition DialFunc :=
  context.Heap -> context.Context -> string -> string -> net.DialResult.

(** The fields of [http.Transport] the program sets or leaves unset. *)
Record Transport := {
  ForceAttemptHTTP2 : bool;
  DialContext : option DialFunc;
  TLSClientConfig : option TLSConfig
}.

Definition portMap (scheme : string) : string :=
  if scheme =? "http" then "80"
  else if scheme =? "https" then "443"
  else if scheme =? "socks5" then "1080"
  else if scheme =? "socks5h" then "1080"
  else "".

(** [canonicalAddr]: the logical "host:port" of a URL whose host is ASCII.
    (The transport converts any other host to its ASCII form first; that
    conversion is not part of this model.) *)
Definition canonicalAddr (u : url.URL) : string :=
  let port := url.Port u in
  let port := if port =? "" then portMap (url.Scheme u) else port in
  net.JoinHostPort (url.Hostname u) port.

(** The name the certificate is checked against: the configuration's
    [ServerName] if set, else the host of the logical address. *)
Definition verifies (t : Transport) (srv : net.Server) (u : url.URL) : bool :=
  match TLSClientConfig t with
  | None => net.certValidFor srv (url.Hostname u)
  | Some cfg =>
      InsecureSkipVerify cfg
      || net.certValidFor srv
           (if ServerName cfg =? "" then url.Hostname u else ServerName cfg)
  end.

Definition zeroDialer : net.Dialer := {| net.Timeout := 0%Z |}.

Definition dial (nw : net.Network) (t : Transport) : DialFunc :=
  match DialContext t with
  | Some f => f
  | None => fun _ _ network addr => net.Dialer_DialContext nw zeroDialer network addr
  end.

(** What the transport does with the outcome of its dial: an https
    connection is verified against the logical host before the request is
    exchanged.  The peer answers or breaks the exchange; a peer that stays
    silent after the connection is made (no handshake, header or read
    deadline is set) is not part of this model. *)
Definition afterDial (t : Transport) (req : Request) (d : net.DialResult)
  : RoundTripResult :=
  let u := URL req in
  match d with
  | net.DialBlocked => RTBlocked
  | net.DialFailed reason addr _ => RTError (DialFailure reason addr)
  | net.Connected conn _ =>
      if (url.Scheme u =? "https") && negb (verifies t (net.peer conn) u)
      then RTError (TLSVerificationFailed (url.Hostname u))
      else
        match net.serve (net.peer conn) (Method req) (Host req) (url.Path u) with
        | inl resp => RTResponse resp
        | inr err => RTError (ExchangeFailed err)
        end
  end.

(** [Transport.RoundTrip] without proxy, for one request on an empty
    pool: the scheme and host are checked and the logical address is
    dialed through the transport's dial hook. *)
Definition Transport_RoundTrip (nw : net.Network) (t : Transport)
  : RoundTripper :=
  fun hp req =>
    let u := URL req in
    let scheme := url.Scheme u in
    if negb ((scheme =? "http") || (scheme =? "https"))
    then RTError (UnsupportedProtocolScheme scheme)
    else if url.Host u =? "" then RTError NoHostInRequestURL
    else afterDial t req (dial nw t hp (ctx req) "tcp" (canonicalAddr u)).

(** [http.DefaultTransport]: a 30 s dial timeout, default TLS settings. *)
Definition DefaultTransport (nw : net.Network) : Transport :=
  {| ForceAttemptHTTP2 := true;
     DialContext := Some (fun _ _ network addr =>
       net.Dialer_DialContext nw {| net.Timeout := (30 * time.Second)%Z |} network addr);
     TLSClientConfig := None |}.

End http.

(** ** Fatal exits and the error monad of [main] *)

(** The [log.Fatalf] and usage exits of the program, one per call site. *)
Inductive FatalError :=
| Usage (prog : string)
| ParsingURLFailed (err : string)
| URLMissingHost (urlStr : string)
| UnknownScheme (scheme : string)
| BuildingRequestFailed (err : string)
| RequestFailed (err : http.RoundTripError)
| ReadFailed (err : string).

(** A computation either yields a value or ends the process. *)
Inductive exec (A : Type) :=
| Ret (a : A)
| Fatalf (e : FatalError).
Arguments Ret {A} a.
Arguments Fatalf {A} e.

Definition bind {A B} (m : exec A) (k : A -> exec B) : exec B :=
  match m with
  | Ret a => k a
  | Fatalf e => Fatalf e
  end.

Notation "x <- m ;; k" := (bind m (fun x => k))
  (at level 61, m at next level, right associativity).

(** What the process does that can be observed from outside. *)
Inductive OutputLine :=
| StatusLine (status : string)
| ProtocolLine (proto : string)
| HeadersLine
| HeaderLine (k v : string)
| BodyLengthLine (n : nat).

Inductive Event :=
| Stderr (e : FatalError)
| Stdout (line : OutputLine)
| BodyClose
| CloseIdleConnections.

(** The process exits with a code, or waits forever. *)
Inductive Outcome :=
| Exited (events : list Event) (code : nat)
| Hung (events : list Event).

Definition eventsOf (o : Outcome) : list Event :=
  match o with
  | Exited events _ => events
  | Hung events => events
  end.

(** [log.Fatalf] (and the usage exit) print and call [os.Exit(1)]: the
    process ends at once and the deferred calls of [main] are not run. *)
Definition log_Fatalf (e : FatalError) (deferred : list Event) : Outcome :=
  Exited [Stderr e] 1.

(** Returning from [main] runs its deferred calls, last deferred first. *)
Definition return_ (out : list Event) (deferred : list Event) : Outcome :=
  Exited (out ++ deferred) 0.

(** ** Target Resolver: [pickPort] *)

Definition pickPort (parsedURL : URL) : exec string :=
  let port := Port parsedURL in
  if negb (port =? "") then Ret port
  else
    let scheme := strings.ToLower (Scheme parsedURL) in
    if scheme =? "https" then Ret "443"
    else if scheme =? "http" then Ret "80"
    else Fatalf (UnknownScheme (Scheme parsedURL)).

(** ** Override Carrier: [withDialOverride], [dialOverrideFromContext] *)

Definition withDialOverride (hp : context.Heap) (ctx : context.Context)
    (addr : string) : context.Heap * context.Context :=
  context.WithValue hp ctx dialOverrideKey (AnyString addr).

(** [val, ok := ctx.Value(dialOverrideKey{}).(string)] *)
Definition dialOverrideFromContext (hp : context.Heap) (ctx : context.Context)
  : string * bool :=
  match context.Value hp ctx dialOverrideKey with
  | AnyString val => (val, true)
  | _ => ("", false)
  end.

(** ** Override-Aware Dialer and Fetch Executor *)

Definition defaultDialer : net.Dialer :=
  {| net.Timeout := (500 * time.Millisecond)%Z |}.

(** [loggingTransport]: a round tripper with an optional base. *)
Record loggingTransport := { base : option http.RoundTripper }.

(** What [main] has computed when it hands the request to the transport. *)
Record Prepared := {
  host : string;
  port : string;
  dialAddr : string;
  req : http.Request;
  heap : context.Heap
}.

(** [main], lines 61-64: the override argument, empty when not given. *)
Definition ipArg (args : list string) : string :=
  if (List.length args =? 3)%nat then nth 2 args "" else "".

(** [main], lines 87-89: with an override the request is replaced by a copy
    whose context carries the dial address; the process has allocated no
    context before. *)
Definition attachOverride (ip dialAddr : string) (req : http.Request)
  : context.Heap * http.Request :=
  if negb (ip =? "")
  then
    let '(hp, ctx) := withDialOverride [] (http.ctx req) dialAddr in
    (hp, http.WithContext req ctx)
  else ([], req).

(** The port a resolution ends with, if it does not end the process. *)
Definition resolved (r : exec string) : option string :=
  match r with
  | Ret port => Some port
  | Fatalf _ => None
  end.

Definition setScheme (u : URL) (scheme : string) : URL :=
  {| Scheme := scheme; Host := Host u; Path := Path u |}.

(** The time a dial took, if it returned. *)
Definition elapsed (r : net.DialResult) : option time.Duration :=
  match r with
  | net.Connected _ t => Some t
  | net.DialFailed _ _ t => Some t
  | net.DialBlocked => None
  end.

(** The dial target in the words of the specification: the host of the
    carried override joined with the port of the logical address; the
    logical address itself when nothing is carried. *)
Definition spec_dialTarget (override : string * bool) (addr : string) : string :=
  if snd override
  then net.JoinHostPort (fst (splitHostPort (fst override)))
                        (snd (splitHostPort addr))
  else addr.

Section Main.

(** [url.Parse] and the network the process runs in. *)
Variable url_Parse : string -> URL + string.
Variable world : net.Network.

(** The [DialContext] closure of [sharedTransport]. *)
Definition sharedTransport_DialContext : http.DialFunc :=
  fun hp ctx network addr =>
    let '(override, ok) := dialOverrideFromContext hp ctx in
    let addr := if ok then override else addr in
    net.Dialer_DialContext world defaultDialer network addr.

Definition sharedTransport : http.Transport :=
  {| http.ForceAttemptHTTP2 := true;
     http.DialContext := Some sharedTransport_DialContext;
     http.TLSClientConfig := None |}.

Definition loggingTransport_RoundTrip (t : loggingTransport)
  : http.RoundTripper :=
  fun hp req =>
    let rt :=
      match base t with
      | Some rt => rt
      | None => http.Transport_RoundTrip world (http.DefaultTransport world)
      end in
    rt hp req.

Definition sharedRoundTripper : loggingTransport :=
  {| base := Some (http.Transport_RoundTrip world sharedTransport) |}.

(** [main], lines 55-89: arguments, target, dial address, request. *)
Definition prepare (args : list string) : exec Prepared :=
  if (List.length args <? 2)%nat || (3 <? List.length args)%nat
  then Fatalf (Usage (nth 0 args ""))
  else
    let urlStr := nth 1 args "" in
    let ip := ipArg args in
    match url_Parse urlStr with
    | inr err => Fatalf (ParsingURLFailed err)
    | inl parsedURL =>
        let host := Hostname parsedURL in
        if host =? "" then Fatalf (URLMissingHost urlStr)
        else
          port <- pickPort parsedURL ;;
          let dialHost := if negb (ip =? "") then ip else host in
          let dialAddr := net.JoinHostPort dialHost port in
          match http.NewRequest url_Parse "GET" urlStr with
          | inr err => Fatalf (BuildingRequestFailed err)
          | inl req =>
              let '(hp, req) := attachOverride ip dialAddr req in
              Ret {| host := host; port := port; dialAddr := dialAddr;
                     req := req; heap := hp |}
          end
    end.

(** One line per header value.  (Go ranges over the header map in an
    unspecified order; the list fixes one.) *)
Definition printHeaders (h : list (string * list string)) : list Event :=
  flat_map (fun kv => map (fun v => Stdout (HeaderLine (fst kv) v)) (snd kv)) h.

(** [main], lines 91-111: round trip, deferred releases, body, output. *)
Definition fetch (p : Prepared) : Outcome :=
  match loggingTransport_RoundTrip sharedRoundTripper (heap p) (req p) with
  | http.RTBlocked => Hung []
  | http.RTError err => log_Fatalf (RequestFailed err) []
  | http.RTResponse resp =>
      let deferred := BodyClose :: [] in
      let deferred := CloseIdleConnections :: deferred in
      match io.ReadAll resp with
      | inr err => log_Fatalf (ReadFailed err) deferred
      | inl body =>
          return_
            ([Stdout (StatusLine (net.Status resp));
              Stdout (ProtocolLine (net.Proto resp));
              Stdout HeadersLine]
             ++ printHeaders (net.Header resp)
             ++ [Stdout (BodyLengthLine (String.length body))])
            deferred
      end
  end.

Definition main (args : list string) : Outcome :=
  match prepare args with
  | Fatalf e => log_Fatalf e []
  | Ret p => fetch p
  end.

End Main.

(** ** Scenarios: a fragment of the parser and a small network *)

(** [url.Parse] on the URLs of the scenarios. *)
Definition parseScenario (s : string) : URL + string :=
  if s =? "https://example.com/"
  then inl {| Scheme := "https"; Host := "example.com"; Path := "/" |}
  else if s =? "http://example.com/"
  then inl {| Scheme := "http"; Host := "example.com"; Path := "/" |}
  else if s =? "https://example.com:8443/path"
  then inl {| Scheme := "https"; Host := "example.com:8443"; Path := "/path" |}
  else inr "invalid URL".

Definition okResponse : net.Response :=
  {| net.Status := "200 OK"; net.Proto := "HTTP/2.0";
     net.Header := [("Content-Type", ["text/plain"])];
     net.BodyData := "hello"; net.BodyReadErr := None |}.

(** A response whose body breaks off while it is read. *)
Definition brokenResponse : net.Response :=
  {| net.Status := "200 OK"; net.Proto := "HTTP/1.1";
     net.Header := [];
     net.BodyData := ""; net.BodyReadErr := Some "unexpected EOF" |}.

Definition exampleServer : net.Server :=
  {| net.certValidFor := fun name => name =? "example.com";
     net.serve := fun _ _ _ => inl okResponse |}.

Definition otherServer : net.Server :=
  {| net.certValidFor := fun name => name =? "other.test";
     net.serve := fun _ _ _ => inl okResponse |}.

Definition brokenServer : net.Server :=
  {| net.certValidFor := fun _ => true;
     net.serve := fun _ _ _ => inl brokenResponse |}.

(** example.com serves its own certificate; 203.0.113.10 serves plain http
    on port 80, a certificate for another name on 8443; 203.0.113.20 breaks
    off its bodies; every other address is unreachable. *)
Definition lab : net.Network :=
  fun network addr =>
    if negb (network =? "tcp") then net.Silent
    else if addr =? "example.com:443" then net.Accepts 20000000%Z exampleServer
    else if addr =? "203.0.113.10:80" then net.Accepts 1000000%Z exampleServer
    else if addr =? "203.0.113.10:8443" then net.Accepts 1000000%Z otherServer
    else if addr =? "203.0.113.20:80" then net.Accepts 1000000%Z brokenServer
    else net.Silent.

(** ** Well-formed dial addresses, ASCII hosts, runs up to header order *)

(** The number a string of decimal digits denotes. *)
Fixpoint portValue (acc : N) (s : string) : N :=
  match s with
  | EmptyString => acc
  | String c r => portValue (acc * 10 + (N_of_ascii c - 48)) r
  end.

(** A numeric port the dialer accepts: digits, at most 65535. *)
Definition validPort (p : string) : bool :=
  negb (p =? "") && strings.allDigits p && (portValue 0 p <=? 65535)%N.

Definition noBrackets (s : string) : bool :=
  negb (strings.ContainsByte "[" s) && negb (strings.ContainsByte "]" s).

(** An address [net.SplitHostPort] splits without error and whose port is
    numeric and in range: "host:port" with a host free of colons and
    brackets, or "[host]:port" with no further bracket.  The dialer refuses
    any other address at once, before it connects; [net.Dialer_DialContext]
    above describes dials of well-formed addresses only. *)
Definition wellFormedAddr (addr : string) : bool :=
  match strings.CutLastByte ":" addr with
  | None => false
  | Some (h, suf) =>
      validPort (strings.DropFirst suf)
      && (if strings.HasPrefix h "["
          then strings.HasSuffixByte h "]"
               && noBrackets (strings.DropLast (strings.DropFirst h))
          else negb (strings.ContainsByte ":" h) && noBrackets h)
  end.

(** Every byte is below 0x80.  For such a host the transport's conversion
    to ASCII (IDNA) is the identity, and [http.canonicalAddr] above is the
    logical address the transport dials. *)
Fixpoint isASCII (s : string) : bool :=
  match s with
  | EmptyString => true
  | String c r => (nat_of_ascii c <? 128)%nat && isASCII r
  end.

Definition isHeaderLine (e : Event) : bool :=
  match e with
  | Stdout (HeaderLine _ _) => true
  | _ => false
  end.

(** Two outcomes that differ at most in the order of their header lines:
    [main] ranges over the header map, whose order changes from run to
    run. *)
Inductive sameUpToHeaderOrder : Outcome -> Outcome -> Prop :=
| same_exited pre h1 h2 post code :
    forallb isHeaderLine h1 = true ->
    Permutation h1 h2 ->
    sameUpToHeaderOrder (Exited (pre ++ h1 ++ post) code)
                        (Exited (pre ++ h2 ++ post) code)
| same_hung events :
    sameUpToHeaderOrder (Hung events) (Hung events).

(** ** Observations used by the further properties *)

Definition isStdout (e : Event) : bool :=
  match e with
  | Stdout _ => true
  | _ => false
  end.

(** A host text that starts with "[" and ends with "]". *)
Definition bracketed (h : string) : bool :=
  strings.HasPrefix h "[" && strings.HasSuffixByte h "]".

(** The address the [DialContext] closure hands to the dialer for a
    request: the carried override, or else the logical address the
    transport computes from the request's URL. *)
Definition dialedAddress (hp : context.Heap) (req : http.Request) : string :=
  if snd (dialOverrideFromContext hp (http.ctx req))
  then fst (dialOverrideFromContext hp (http.ctx req))
  else http.canonicalAddr (http.URL req).



(** [url.Parse] on some further strings: another scheme with and without a
    port, an authority without host, a bare name (a path, no scheme and no
    host) and a string without scheme before "://", which does not parse.
    Strings outside this table are not used. *)
Definition parseMore (s : string) : URL + string :=
  if s =? "example.com"
  then inl {| Scheme := ""; Host := ""; Path := "example.com" |}
  else if s =? "://example.com"
  then inr "missing protocol scheme"
  else if s =? "ftp://example.com:2121/pub"
  then inl {| Scheme := "ftp"; Host := "example.com:2121"; Path := "/pub" |}
  else if s =? "ftp://example.com/pub"
  then inl {| Scheme := "ftp"; Host := "example.com"; Path := "/pub" |}
  else if s =? "ftp:///pub"
  then inl {| Scheme := "ftp"; Host := ""; Path := "/pub" |}
  else if s =? "http://example.com/"
  then inl {| Scheme := "http"; Host := "example.com"; Path := "/" |}
  else if s =? "https://example.com/"
  then inl {| Scheme := "https"; Host := "example.com"; Path := "/" |}
  else inr "not in the table".

Definition richResponse : net.Response :=
  {| net.Status := "200 OK"; net.Proto := "HTTP/1.1";
     net.Header := [("Set-Cookie", ["a=1"; "b=2"]); ("Vary", []);
                    ("Content-Type", ["text/html"])];
     net.BodyData := "<html></html>"; net.BodyReadErr := None |}.

Definition richServer : net.Server :=
  {| net.certValidFor := fun name => name =? "example.com";
     net.serve := fun _ _ _ => inl richResponse |}.

(** The same server behind example.com and behind 203.0.113.10, on both
    ports; 203.0.113.30 refuses connections; nothing else answers. *)
Definition mirrored : net.Network :=
  fun network addr =>
    if negb (network =? "tcp") then net.Silent
    else if addr =? "example.com:80" then net.Accepts 30000000%Z richServer
    else if addr =? "203.0.113.10:80" then net.Accepts 2000000%Z richServer
    else if addr =? "example.com:443" then net.Accepts 30000000%Z richServer
    else if addr =? "203.0.113.10:443" then net.Accepts 2000000%Z richServer
    else if addr =? "203.0.113.30:80" then net.Refuses 1000000%Z
    else net.Silent.

(** * Properties *)

Example scenario_no_override :
  exists p, prepare parseScenario ["gotest"; "https://example.com/"] = Ret p
            /\ dialAddr p = "example.com:443"
            /\ http.Host (req p) = "example.com".
Proof. eexists. split; [reflexivity | split; reflexivity]. Qed.

Example scenario_http_override :
  exists p, prepare parseScenario ["gotest"; "http://example.com/"; "203.0.113.10"] = Ret p
            /\ dialAddr p = "203.0.113.10:80"
            /\ http.Host (req p) = "example.com".
Proof. eexists. split; [reflexivity | split; reflexivity]. Qed.

Example scenario_https_8443_override :
  exists p, prepare parseScenario
              ["gotest"; "https://example.com:8443/path"; "203.0.113.10"] = Ret p
            /\ dialAddr p = "203.0.113.10:8443"
            /\ http.Host (req p) = "example.com:8443"
            /\ Hostname (http.URL (req p)) = "example.com".
Proof. eexists. split; [reflexivity | repeat split; reflexivity]. Qed.

Example scenario_main_ok :
  main parseScenario lab ["gotest"; "https://example.com/"]
  = Exited [Stdout (StatusLine "200 OK"); Stdout (ProtocolLine "HTTP/2.0");
            Stdout HeadersLine; Stdout (HeaderLine "Content-Type" "text/plain");
            Stdout (BodyLengthLine 5); CloseIdleConnections; BodyClose] 0.
Proof. vm_compute. reflexivity. Qed.

Example scenario_main_tls_mismatch :
  main parseScenario lab ["gotest"; "https://example.com:8443/path"; "203.0.113.10"]
  = Exited [Stderr (RequestFailed (http.TLSVerificationFailed "example.com"))] 1.
Proof. vm_compute. reflexivity. Qed.

Example scenario_main_unreachable :
  main parseScenario lab ["gotest"; "https://example.com/"; "198.51.100.1"]
  = Exited [Stderr (RequestFailed (http.DialFailure net.IOTimeout "198.51.100.1:443"))] 1.
Proof. vm_compute. reflexivity. Qed.

Example scenario_main_broken_body :
  main parseScenario lab ["gotest"; "http://example.com/"; "203.0.113.20"]
  = Exited [Stderr (ReadFailed "unexpected EOF")] 1.
Proof. vm_compute. reflexivity. Qed.

(** ** Strings and addresses *)

Lemma lowerByte_idempotent (c : ascii) :
  strings.lowerByte (strings.lowerByte c) = strings.lowerByte c.
Proof. destruct c as [[] [] [] [] [] [] [] []]; reflexivity. Qed.

Lemma ToLower_idempotent (s : string) :
  strings.ToLower (strings.ToLower s) = strings.ToLower s.
Proof.
  induction s as [|c r IH]; simpl; [reflexivity|].
  now rewrite lowerByte_idempotent, IH.
Qed.

Lemma isDigit_not_colon (c : ascii) :
  strings.isDigit c = true -> Ascii.eqb c ":" = false.
Proof. destruct c as [[] [] [] [] [] [] [] []]; vm_compute; congruence. Qed.

Lemma allDigits_no_colon (s : string) :
  strings.allDigits s = true -> strings.ContainsByte ":" s = false.
Proof.
  induction s as [|c r IH]; simpl; [reflexivity|].
  intros H. apply andb_true_iff in H as [Hc Hr].
  now rewrite (isDigit_not_colon _ Hc), (IH Hr).
Qed.

Lemma CutLastByte_absent (c : ascii) (s : string) :
  strings.ContainsByte c s = false -> strings.CutLastByte c s = None.
Proof.
  induction s as [|a r IH]; simpl; [reflexivity|].
  intros H. apply orb_false_iff in H as [Ha Hr].
  now rewrite (IH Hr), Ha.
Qed.

Lemma CutLastByte_app (c : ascii) (h p : string) :
  strings.ContainsByte c p = false ->
  strings.CutLastByte c (h ++ String c p) = Some (h, String c p).
Proof.
  intros Hp. induction h as [|a r IH]; simpl.
  - now rewrite (CutLastByte_absent _ _ Hp), Ascii.eqb_refl.
  - now rewrite IH.
Qed.

Lemma append_assoc (a b c : string) : (a ++ b) ++ c = a ++ (b ++ c).
Proof. induction a as [|x a IH]; simpl; [reflexivity | now rewrite IH]. Qed.

(** A joined address is some host text, a colon, and the port. *)
Lemma JoinHostPort_shape (host port : string) :
  exists h, net.JoinHostPort host port = h ++ String ":" port.
Proof.
  unfold net.JoinHostPort. destruct (strings.ContainsByte ":" host).
  - exists ("[" ++ host ++ "]"). simpl. f_equal.
    now rewrite append_assoc.
  - now exists host.
Qed.

(** Splitting a joined address gives the port back. *)
Lemma splitHostPort_JoinHostPort (host port : string) :
  strings.allDigits port = true ->
  snd (splitHostPort (net.JoinHostPort host port)) = port.
Proof.
  intros Hd. destruct (JoinHostPort_shape host port) as [h ->].
  unfold splitHostPort.
  rewrite (CutLastByte_app _ _ _ (allDigits_no_colon _ Hd)).
  simpl. now rewrite Hd.
Qed.

Lemma JoinHostPort_plain (host port : string) :
  strings.ContainsByte ":" host = false ->
  net.JoinHostPort host port = host ++ ":" ++ port.
Proof. unfold net.JoinHostPort. now intros ->. Qed.

Lemma Port_allDigits (u : URL) : strings.allDigits (Port u) = true.
Proof.
  unfold Port, splitHostPort.
  destruct (strings.CutLastByte ":" (Host u)) as [[pre suf]|]; [|reflexivity].
  destruct (url.validOptionalPort suf) eqn:V; [|reflexivity].
  destruct suf as [|c r]; [reflexivity|].
  simpl in *. now apply andb_true_iff in V.
Qed.

(** ** Target Resolver *)

Lemma pickPort_explicit (u : URL) :
  Port u <> "" -> pickPort u = Ret (Port u).
Proof.
  intros H. unfold pickPort.
  destruct (String.eqb_spec (Port u) ""); [contradiction | reflexivity].
Qed.

Lemma pickPort_default (u : URL) :
  Port u = "" ->
  pickPort u =
    if strings.ToLower (Scheme u) =? "https" then Ret "443"
    else if strings.ToLower (Scheme u) =? "http" then Ret "80"
    else Fatalf (UnknownScheme (Scheme u)).
Proof. intros H. unfold pickPort. now rewrite H. Qed.

Lemma pickPort_allDigits (u : URL) (port : string) :
  pickPort u = Ret port -> strings.allDigits port = true /\ port <> "".
Proof.
  unfold pickPort.
  destruct (String.eqb_spec (Port u) "") as [E|N]; simpl.
  - destruct (_ =? "https"); [intros [= <-]; split; [reflexivity | discriminate]|].
    destruct (_ =? "http"); [intros [= <-]; split; [reflexivity | discriminate]|].
    discriminate.
  - intros [= <-]. split; [apply Port_allDigits | assumption].
Qed.

(** C4: an explicit port wins whatever the scheme; without one, http gives
    80 and https gives 443; any other scheme without an explicit port ends
    the process with the unknown-scheme error; a resolved port is never
    empty. *)
Theorem pickPort_resolution (u : URL) :
  (Port u <> "" -> pickPort u = Ret (Port u))
  /\ (Port u = "" -> Scheme u = "http" -> pickPort u = Ret "80")
  /\ (Port u = "" -> Scheme u = "https" -> pickPort u = Ret "443")
  /\ (Port u = "" ->
      strings.ToLower (Scheme u) <> "http" ->
      strings.ToLower (Scheme u) <> "https" ->
      pickPort u = Fatalf (UnknownScheme (Scheme u)))
  /\ (forall port, pickPort u = Ret port -> port <> "").
Proof.
  repeat split.
  - apply pickPort_explicit.
  - intros P S. rewrite (pickPort_default _ P), S. reflexivity.
  - intros P S. rewrite (pickPort_default _ P), S. reflexivity.
  - intros P H1 H2. rewrite (pickPort_default _ P).
    destruct (String.eqb_spec (strings.ToLower (Scheme u)) "https"); [contradiction|].
    destruct (String.eqb_spec (strings.ToLower (Scheme u)) "http"); [contradiction|].
    reflexivity.
  - intros port H. apply (pickPort_allDigits _ _ H).
Qed.

Lemma pickPort_resolution_witness :
  pickPort {| Scheme := "ftp"; Host := "example.com:2121"; Path := "/" |} = Ret "2121"
  /\ pickPort {| Scheme := "http"; Host := "example.com"; Path := "/" |} = Ret "80"
  /\ pickPort {| Scheme := "https"; Host := "example.com"; Path := "/" |} = Ret "443"
  /\ pickPort {| Scheme := "ftp"; Host := "example.com"; Path := "/" |}
     = Fatalf (UnknownScheme "ftp")
  /\ "8443" <> "".
Proof.
  split; [|split; [|split; [|split]]].
  - apply (pickPort_resolution
             {| Scheme := "ftp"; Host := "example.com:2121"; Path := "/" |}).
    vm_compute. discriminate.
  - apply (pickPort_resolution
             {| Scheme := "http"; Host := "example.com"; Path := "/" |});
      reflexivity.
  - apply (pickPort_resolution
             {| Scheme := "https"; Host := "example.com"; Path := "/" |});
      reflexivity.
  - apply (pickPort_resolution
             {| Scheme := "ftp"; Host := "example.com"; Path := "/" |});
      [reflexivity | vm_compute; discriminate | vm_compute; discriminate].
  - apply (pickPort_resolution
             {| Scheme := "https"; Host := "example.com:8443"; Path := "/path" |}).
    reflexivity.
Defined.

(** C10: without an explicit port, a scheme in any capitalization resolves
    to the default port of its lowercase form: 443 when that is "https",
    80 when it is "http"; in every case it resolves exactly as its
    lowercase form does. *)
Theorem pickPort_scheme_case_insensitive (u : URL) :
  Port u = "" ->
  (strings.ToLower (Scheme u) = "https" -> pickPort u = Ret "443")
  /\ (strings.ToLower (Scheme u) = "http" -> pickPort u = Ret "80")
  /\ resolved (pickPort u)
     = resolved (pickPort (setScheme u (strings.ToLower (Scheme u)))).
Proof.
  intros P.
  split; [intros E; rewrite (pickPort_default _ P), E; reflexivity|].
  split; [intros E; rewrite (pickPort_default _ P), E; reflexivity|].
  assert (P' : Port (setScheme u (strings.ToLower (Scheme u))) = "") by exact P.
  rewrite (pickPort_default _ P), (pickPort_default _ P').
  simpl. rewrite ToLower_idempotent.
  destruct (_ =? "https"); [reflexivity|].
  destruct (_ =? "http"); reflexivity.
Qed.

Lemma pickPort_scheme_case_insensitive_witness :
  Port {| Scheme := "HttpS"; Host := "example.com"; Path := "/" |} = ""
  /\ pickPort {| Scheme := "HttpS"; Host := "example.com"; Path := "/" |}
     = Ret "443"
  /\ pickPort {| Scheme := "HTTP"; Host := "example.com"; Path := "/" |}
     = Ret "80"
  /\ resolved (pickPort {| Scheme := "HttpS"; Host := "example.com"; Path := "/" |})
     = resolved (pickPort {| Scheme := "https"; Host := "example.com"; Path := "/" |}).
Proof.
  split; [reflexivity|].
  destruct (pickPort_scheme_case_insensitive
              {| Scheme := "HttpS"; Host := "example.com"; Path := "/" |} eq_refl)
    as (A & _ & C).
  destruct (pickPort_scheme_case_insensitive
              {| Scheme := "HTTP"; Host := "example.com"; Path := "/" |} eq_refl)
    as (_ & B & _).
  split; [apply A; reflexivity|]. split; [apply B; reflexivity | exact C].
Defined.

(** Two schemes that differ in capitalization only resolve alike. *)
Lemma pickPort_same_fold (u1 u2 : URL) :
  Port u1 = "" -> Port u2 = "" ->
  strings.ToLower (Scheme u1) = strings.ToLower (Scheme u2) ->
  resolved (pickPort u1) = resolved (pickPort u2).
Proof.
  intros P1 P2 E.
  rewrite (pickPort_default _ P1), (pickPort_default _ P2), E.
  destruct (_ =? "https"); [reflexivity|].
  destruct (_ =? "http"); reflexivity.
Qed.

(** ** Fetch Executor: what [main] computes before the round trip *)

Lemma NewRequest_ctx parse method urlStr r :
  http.NewRequest parse method urlStr = inl r ->
  http.ctx r = context.Background.
Proof.
  unfold http.NewRequest. destruct (parse urlStr); [|discriminate].
  now intros [= <-].
Qed.

Section Prepare.

Variable url_Parse : string -> URL + string.

(** Every successful run of lines 55-89 went through the same steps. *)
Lemma prepare_inv (args : list string) (p : Prepared) :
  prepare url_Parse args = Ret p ->
  exists u r,
    url_Parse (nth 1 args "") = inl u
    /\ Hostname u <> ""
    /\ pickPort u = Ret (port p)
    /\ host p = Hostname u
    /\ dialAddr p
       = net.JoinHostPort
           (if negb (ipArg args =? "") then ipArg args else Hostname u) (port p)
    /\ http.NewRequest url_Parse "GET" (nth 1 args "") = inl r
    /\ (heap p, req p) = attachOverride (ipArg args) (dialAddr p) r.
Proof.
  unfold prepare.
  destruct (_ || _); [discriminate|].
  destruct (url_Parse (nth 1 args "")) as [u|err] eqn:EP; [|discriminate].
  destruct (String.eqb_spec (Hostname u) "") as [|NH]; [discriminate|].
  destruct (pickPort u) as [pt|e] eqn:EPort; simpl; [|discriminate].
  destruct (http.NewRequest url_Parse "GET" (nth 1 args "")) as [r|err] eqn:ER;
    [|discriminate].
  unfold attachOverride.
  destruct (negb (ipArg args =? "")); simpl; intros [= <-]; simpl;
    exists u, r; repeat split; auto.
Qed.

(** The steps, run forward. *)
Lemma prepare_run (args : list string) u pt r :
  (2 <= List.length args <= 3)%nat ->
  url_Parse (nth 1 args "") = inl u ->
  Hostname u <> "" ->
  pickPort u = Ret pt ->
  http.NewRequest url_Parse "GET" (nth 1 args "") = inl r ->
  let da := net.JoinHostPort
              (if negb (ipArg args =? "") then ipArg args else Hostname u) pt in
  prepare url_Parse args
  = Ret {| host := Hostname u; port := pt; dialAddr := da;
           req := snd (attachOverride (ipArg args) da r);
           heap := fst (attachOverride (ipArg args) da r) |}.
Proof.
  intros L EP NH EPort ER da. unfold prepare.
  replace ((List.length args <? 2)%nat || (3 <? List.length args)%nat)
    with false
    by (symmetry; apply orb_false_iff; split; apply Nat.ltb_ge; lia).
  rewrite EP.
  destruct (String.eqb_spec (Hostname u) ""); [contradiction|].
  rewrite EPort. simpl. rewrite ER. fold da. unfold attachOverride.
  destruct (negb (ipArg args =? "")); reflexivity.
Qed.

Lemma prepare_length (args : list string) (p : Prepared) :
  prepare url_Parse args = Ret p -> (2 <= List.length args <= 3)%nat.
Proof.
  unfold prepare.
  destruct (List.length args <? 2)%nat eqn:A; [discriminate|].
  destruct (3 <? List.length args)%nat eqn:B; [discriminate|].
  intros _. apply Nat.ltb_ge in A, B. lia.
Qed.

(** The Target of a prepared run comes from the parsed URL. *)
Lemma prepared_target (args : list string) (p : Prepared) :
  prepare url_Parse args = Ret p ->
  exists u, url_Parse (nth 1 args "") = inl u
            /\ host p = Hostname u /\ pickPort u = Ret (port p).
Proof.
  intros H. destruct (prepare_inv _ _ H) as (u & r & EP & _ & EPort & Hh & _).
  exists u. auto.
Qed.

(** Line 80, by the two cases of lines 76-79. *)
Lemma prepared_dialAddr (args : list string) (p : Prepared) :
  prepare url_Parse args = Ret p ->
  (ipArg args <> "" -> dialAddr p = net.JoinHostPort (ipArg args) (port p))
  /\ (ipArg args = "" -> dialAddr p = net.JoinHostPort (host p) (port p))
  /\ snd (splitHostPort (dialAddr p)) = port p.
Proof.
  intros H. destruct (prepare_inv _ _ H) as (u & r & _ & _ & EPort & Hh & Hd & _).
  split; [|split].
  - intros N. rewrite Hd.
    destruct (String.eqb_spec (ipArg args) ""); [contradiction | reflexivity].
  - intros E. rewrite Hd, E, Hh. reflexivity.
  - rewrite Hd. apply splitHostPort_JoinHostPort.
    apply (pickPort_allDigits _ _ EPort).
Qed.

(** C1: the dial address is the override joined with the Target's port
    when an override is supplied, the Target's host joined with the
    Target's port otherwise; what follows its last colon is the Target's
    port, whatever the override contains. *)
Theorem dialAddr_computed (args : list string) (p : Prepared) :
  prepare url_Parse args = Ret p ->
  (exists u, url_Parse (nth 1 args "") = inl u
             /\ host p = Hostname u /\ pickPort u = Ret (port p))
  /\ (ipArg args <> "" ->
      dialAddr p = net.JoinHostPort (ipArg args) (port p))
  /\ (ipArg args = "" ->
      dialAddr p = net.JoinHostPort (host p) (port p))
  /\ snd (splitHostPort (dialAddr p)) = port p
  /\ (ipArg args <> "" -> strings.ContainsByte ":" (ipArg args) = false ->
      dialAddr p = ipArg args ++ ":" ++ port p).
Proof.
  intros H. destruct (prepared_dialAddr _ _ H) as (J & D & S).
  split; [exact (prepared_target _ _ H)|].
  split; [exact J|]. split; [exact D|]. split; [exact S|].
  intros N C. rewrite (J N). now apply JoinHostPort_plain.
Qed.

End Prepare.

Lemma dialAddr_computed_witness :
  exists p,
    prepare parseScenario ["gotest"; "https://example.com:8443/path"; "203.0.113.10"]
    = Ret p
    /\ dialAddr p = "203.0.113.10:8443"
    /\ snd (splitHostPort (dialAddr p)) = "8443".
Proof.
  eexists. split; [reflexivity|].
  destruct (dialAddr_computed parseScenario
              ["gotest"; "https://example.com:8443/path"; "203.0.113.10"] _
              eq_refl) as (_ & J & _ & S & _).
  split; [apply J; vm_compute; discriminate | exact S].
Defined.

Section Identity.

Variable url_Parse : string -> URL + string.

Lemma WithContext_same (r : http.Request) :
  http.WithContext r (http.ctx r) = r.
Proof. now destruct r. Qed.

Lemma attachOverride_frame (ip da : string) (r : http.Request) :
  let r' := snd (attachOverride ip da r) in
  http.Method r' = http.Method r
  /\ http.URL r' = http.URL r
  /\ http.Host r' = http.Host r
  /\ r' = http.WithContext r (http.ctx r').
Proof.
  unfold attachOverride. destruct (negb (ip =? "")); simpl.
  - repeat split.
  - repeat split. now rewrite WithContext_same.
Qed.

(** C7: with or without an override the request has the same method, URL
    and Host; the overridden request is the plain one with another
    context, and one run is fatal exactly when the other is. *)
Theorem request_identity_unchanged (prog urlStr ip : string) :
  (forall p1, prepare url_Parse [prog; urlStr; ip] = Ret p1 ->
     exists p0, prepare url_Parse [prog; urlStr] = Ret p0
       /\ http.Method (req p1) = http.Method (req p0)
       /\ http.URL (req p1) = http.URL (req p0)
       /\ http.Host (req p1) = http.Host (req p0)
       /\ req p1 = http.WithContext (req p0) (http.ctx (req p1)))
  /\ (forall p0, prepare url_Parse [prog; urlStr] = Ret p0 ->
     exists p1, prepare url_Parse [prog; urlStr; ip] = Ret p1
       /\ http.Method (req p1) = http.Method (req p0)
       /\ http.URL (req p1) = http.URL (req p0)
       /\ http.Host (req p1) = http.Host (req p0)
       /\ req p1 = http.WithContext (req p0) (http.ctx (req p1))).
Proof.
  split.
  - intros p1 H1.
    destruct (prepare_inv _ _ _ H1) as (u & r & EP & NH & EPort & _ & _ & ER & EA).
    simpl in EP, ER.
    eexists. split.
    + apply (prepare_run url_Parse [prog; urlStr] u (port p1) r);
        simpl; auto; lia.
    + simpl.
      assert (E : req p1 = snd (attachOverride (ipArg [prog; urlStr; ip]) (dialAddr p1) r))
        by (rewrite <- EA; reflexivity).
      rewrite E. apply attachOverride_frame.
  - intros p0 H0.
    destruct (prepare_inv _ _ _ H0) as (u & r & EP & NH & EPort & _ & _ & ER & EA).
    simpl in EP, ER.
    assert (E0 : req p0 = r) by (apply (f_equal snd) in EA; exact EA).
    eexists. split.
    + apply (prepare_run url_Parse [prog; urlStr; ip] u (port p0) r);
        simpl; auto; lia.
    + simpl. rewrite E0. apply attachOverride_frame.
Qed.

(** C9: an empty override argument is no override: the run is the one
    without the argument, nothing is attached to the request's context,
    and the dial address is the Target's host and port. *)
Theorem empty_override_is_none (world : net.Network) (prog urlStr : string) :
  prepare url_Parse [prog; urlStr; ""] = prepare url_Parse [prog; urlStr]
  /\ main url_Parse world [prog; urlStr; ""] = main url_Parse world [prog; urlStr]
  /\ (forall p, prepare url_Parse [prog; urlStr; ""] = Ret p ->
        dialOverrideFromContext (heap p) (http.ctx (req p)) = ("", false)
        /\ heap p = []
        /\ dialAddr p = net.JoinHostPort (host p) (port p)).
Proof.
  split; [reflexivity|]. split; [reflexivity|].
  intros p H.
  destruct (prepare_inv _ _ _ H) as (u & r & _ & _ & _ & Hh & Hd & ER & EA).
  change (attachOverride (ipArg [prog; urlStr; ""]) (dialAddr p) r) with
    (@nil context.valueCtx, r) in EA.
  change (ipArg [prog; urlStr; ""]) with "" in Hd. simpl in Hd.
  injection EA as Eh Er.
  rewrite Eh, Er, (NewRequest_ctx _ _ _ _ ER), Hd, Hh. repeat split.
Qed.

End Identity.

Lemma request_identity_unchanged_witness :
  exists p0 p1,
    prepare parseScenario ["gotest"; "http://example.com/"] = Ret p0
    /\ prepare parseScenario ["gotest"; "http://example.com/"; "203.0.113.10"] = Ret p1
    /\ http.URL (req p1) = http.URL (req p0)
    /\ http.Host (req p1) = http.Host (req p0)
    /\ http.ctx (req p1) <> http.ctx (req p0).
Proof.
  destruct (request_identity_unchanged parseScenario
              "gotest" "http://example.com/" "203.0.113.10") as [_ F].
  destruct (F _ eq_refl) as (p1 & H1 & _ & HU & HH & _).
  eexists; exists p1.
  split; [reflexivity|]. split; [exact H1|].
  split; [exact HU|]. split; [exact HH|].
  vm_compute in H1. injection H1 as <-. discriminate.
Defined.

Lemma empty_override_is_none_witness :
  exists p,
    prepare parseScenario ["gotest"; "https://example.com/"; ""] = Ret p
    /\ dialOverrideFromContext (heap p) (http.ctx (req p)) = ("", false)
    /\ dialAddr p = "example.com:443".
Proof.
  eexists. split; [reflexivity|].
  destruct (empty_override_is_none parseScenario lab "gotest" "https://example.com/")
    as (_ & _ & F).
  destruct (F _ eq_refl) as (A & _ & D).
  split; [exact A | exact D].
Defined.

(** ** Override Carrier *)

Lemma Key_eqb_refl (k : Key) : Key_eqb k k = true.
Proof. destruct k; simpl; [reflexivity | apply Nat.eqb_refl]. Qed.

Lemma Value_Background (hp : context.Heap) (k : Key) :
  context.Value hp context.Background k = AnyNil.
Proof. now destruct hp. Qed.

(** An allocation leaves what every older context reads unchanged. *)
Lemma Value_WithValue_older hp c1 k v c2 k' :
  context.allocated hp c2 ->
  context.Value (fst (context.WithValue hp c1 k v)) c2 k' = context.Value hp c2 k'.
Proof.
  destruct c2 as [|h]; simpl.
  - intros _. now rewrite Value_Background.
  - intros L. destruct (Nat.eqb_spec h (List.length hp)); [lia | reflexivity].
Qed.

Lemma Value_WithValue_new hp c k v :
  context.Value (fst (context.WithValue hp c k v))
                (snd (context.WithValue hp c k v)) k = v.
Proof. simpl. now rewrite Nat.eqb_refl, Key_eqb_refl. Qed.

Lemma Value_not_carried hp c k :
  context.carries hp c k = false -> context.Value hp c k = AnyNil.
Proof.
  revert c. induction hp as [|n older IH]; intros c; simpl; [reflexivity|].
  destruct c as [|h]; [reflexivity|].
  destruct (Nat.eqb h (List.length older)).
  - intros H. apply orb_false_iff in H as [Hk Hc]. rewrite Hk. now apply IH.
  - apply IH.
Qed.

Lemma dialOverride_older hp c1 a c2 :
  context.allocated hp c2 ->
  dialOverrideFromContext (fst (withDialOverride hp c1 a)) c2
  = dialOverrideFromContext hp c2.
Proof.
  intros L. unfold dialOverrideFromContext, withDialOverride.
  now rewrite Value_WithValue_older.
Qed.

Lemma dialOverride_new hp c a :
  dialOverrideFromContext (fst (withDialOverride hp c a))
                          (snd (withDialOverride hp c a)) = (a, true).
Proof.
  unfold dialOverrideFromContext, withDialOverride.
  now rewrite Value_WithValue_new.
Qed.

(** C8: attaching an override to one scope creates a new scope that reads
    it, and leaves what any existing scope reads, and therefore what the
    dialer does for it, unchanged; a scope with nothing attached reads
    absence, before and after. *)
Theorem override_noninterference
    (hp : context.Heap) (c1 c2 : context.Context) (a : string) :
  context.allocated hp c2 ->
  let hp' := fst (withDialOverride hp c1 a) in
  let c1' := snd (withDialOverride hp c1 a) in
  dialOverrideFromContext hp' c1' = (a, true)
  /\ c1' <> c2
  /\ dialOverrideFromContext hp' c2 = dialOverrideFromContext hp c2
  /\ (forall world network addr,
        sharedTransport_DialContext world hp' c2 network addr
        = sharedTransport_DialContext world hp c2 network addr)
  /\ (context.carries hp c2 dialOverrideKey = false ->
        dialOverrideFromContext hp c2 = ("", false)
        /\ dialOverrideFromContext hp' c2 = ("", false)).
Proof.
  intros L hp' c1'.
  assert (E : dialOverrideFromContext hp' c2 = dialOverrideFromContext hp c2)
    by (apply dialOverride_older; exact L).
  split; [apply dialOverride_new|].
  split.
  { intros <-. simpl in L. lia. }
  split; [exact E|].
  split.
  { intros world network addr. unfold sharedTransport_DialContext. now rewrite E. }
  intros N. rewrite E.
  unfold dialOverrideFromContext. now rewrite (Value_not_carried _ _ _ N).
Qed.

Lemma override_noninterference_witness :
  let hp := fst (withDialOverride [] context.Background "203.0.113.10:80") in
  let c2 := snd (withDialOverride [] context.Background "203.0.113.10:80") in
  let hp' := fst (withDialOverride hp context.Background "198.51.100.7:443") in
  let c1' := snd (withDialOverride hp context.Background "198.51.100.7:443") in
  context.allocated hp c2
  /\ dialOverrideFromContext hp' c1' = ("198.51.100.7:443", true)
  /\ dialOverrideFromContext hp' c2 = ("203.0.113.10:80", true)
  /\ dialOverrideFromContext hp' context.Background = ("", false).
Proof.
  intros hp c2 hp' c1'.
  assert (L : context.allocated hp c2) by (simpl; lia).
  split; [exact L|].
  destruct (override_noninterference hp context.Background c2 "198.51.100.7:443" L)
    as (A & _ & B & _).
  destruct (override_noninterference hp context.Background context.Background
              "198.51.100.7:443" I) as (_ & _ & _ & _ & C).
  split; [exact A|]. split; [exact B|].
  apply C. reflexivity.
Defined.

(** Two overrides attached one after the other are each read back from
    their own scope. *)
Lemma two_overrides_independent hp c1 c2 a1 a2 :
  let hp1 := fst (withDialOverride hp c1 a1) in
  let c1' := snd (withDialOverride hp c1 a1) in
  let hp2 := fst (withDialOverride hp1 c2 a2) in
  let c2' := snd (withDialOverride hp1 c2 a2) in
  dialOverrideFromContext hp2 c1' = (a1, true)
  /\ dialOverrideFromContext hp2 c2' = (a2, true).
Proof.
  intros hp1 c1' hp2 c2'. split.
  - unfold hp2. rewrite dialOverride_older; [apply dialOverride_new|].
    simpl. lia.
  - apply dialOverride_new.
Qed.

(** ** Override-Aware Dialer *)

Section Dialing.

Variable url_Parse : string -> URL + string.
Variable world : net.Network.

Lemma DialContext_present hp ctx network addr o :
  dialOverrideFromContext hp ctx = (o, true) ->
  sharedTransport_DialContext world hp ctx network addr
  = net.Dialer_DialContext world defaultDialer network o.
Proof. unfold sharedTransport_DialContext. now intros ->. Qed.

Lemma DialContext_absent hp ctx network addr :
  snd (dialOverrideFromContext hp ctx) = false ->
  sharedTransport_DialContext world hp ctx network addr
  = net.Dialer_DialContext world defaultDialer network addr.
Proof.
  unfold sharedTransport_DialContext.
  destruct (dialOverrideFromContext hp ctx) as [o ok]. simpl. now intros ->.
Qed.

(** What the context of a prepared request carries. *)
Lemma prepared_override (args : list string) (p : Prepared) :
  prepare url_Parse args = Ret p ->
  dialOverrideFromContext (heap p) (http.ctx (req p))
  = if negb (ipArg args =? "") then (dialAddr p, true) else ("", false).
Proof.
  intros H.
  destruct (prepare_inv _ _ _ H) as (u & r & _ & _ & _ & _ & _ & ER & EA).
  unfold attachOverride in EA. rewrite (NewRequest_ctx _ _ _ _ ER) in EA.
  destruct (negb (ipArg args =? "")); injection EA as -> ->; reflexivity.
Qed.

(** C3, as the code has it: when the carrier holds a value the dialer
    dials that value as it is and ignores the logical address, port
    included; when it holds none the dialer dials the logical address.
    The carried value of a request built by [main] is the override joined
    with the Target's port, so its port is the Target's. *)
Theorem dialer_substitutes_carried_address
    (hp : context.Heap) (ctx : context.Context) (network addr : string) :
  (forall o, dialOverrideFromContext hp ctx = (o, true) ->
     sharedTransport_DialContext world hp ctx network addr
     = net.Dialer_DialContext world defaultDialer network o
     /\ forall addr',
          sharedTransport_DialContext world hp ctx network addr'
          = sharedTransport_DialContext world hp ctx network addr)
  /\ (snd (dialOverrideFromContext hp ctx) = false ->
     sharedTransport_DialContext world hp ctx network addr
     = net.Dialer_DialContext world defaultDialer network addr)
  /\ (forall args p,
        prepare url_Parse args = Ret p -> ipArg args <> "" ->
        dialOverrideFromContext (heap p) (http.ctx (req p))
        = (net.JoinHostPort (ipArg args) (port p), true)
        /\ snd (splitHostPort (net.JoinHostPort (ipArg args) (port p))) = port p
        /\ sharedTransport_DialContext world (heap p) (http.ctx (req p)) network addr
           = net.Dialer_DialContext world defaultDialer network
               (net.JoinHostPort (ipArg args) (port p))).
Proof.
  split; [|split].
  - intros o Ho. split; [now apply DialContext_present|].
    intros addr'. now rewrite !(DialContext_present _ _ _ _ _ Ho).
  - apply DialContext_absent.
  - intros args p H N.
    destruct (prepared_dialAddr _ _ _ H) as (J & _ & S).
    pose proof (prepared_override _ _ H) as C.
    destruct (String.eqb_spec (ipArg args) ""); [contradiction|].
    simpl in C. rewrite (J N) in C, S.
    split; [exact C|]. split; [exact S|].
    now apply DialContext_present.
Qed.



End Dialing.

Lemma dialer_substitutes_carried_address_witness :
  exists p,
    prepare parseScenario ["gotest"; "https://example.com:8443/path"; "203.0.113.10"]
    = Ret p
    /\ dialOverrideFromContext (heap p) (http.ctx (req p))
       = ("203.0.113.10:8443", true)
    /\ sharedTransport_DialContext lab (heap p) (http.ctx (req p))
         "tcp" "example.com:8443"
       = net.Dialer_DialContext lab defaultDialer "tcp" "203.0.113.10:8443".
Proof.
  eexists. split; [reflexivity|].
  destruct (dialer_substitutes_carried_address parseScenario lab
              [] context.Background "tcp" "example.com:8443") as (_ & _ & F).
  destruct (F ["gotest"; "https://example.com:8443/path"; "203.0.113.10"] _ eq_refl)
    as (A & _ & B).
  - vm_compute. discriminate.
  - split; [exact A | exact B].
Defined.

(** C3 as the specification words it does not hold: a carried
    "203.0.113.10:8443" with the logical address "example.com:443" is
    dialed as it is, with its own port 8443 and not the logical 443. *)
Lemma dialer_spec_wording_counterexample :
  ~ (forall (world : net.Network) hp ctx network addr,
       sharedTransport_DialContext world hp ctx network addr
       = net.Dialer_DialContext world defaultDialer network
           (spec_dialTarget (dialOverrideFromContext hp ctx) addr)).
Proof.
  intros H.
  specialize (H (fun _ _ => net.Silent)
                (fst (withDialOverride [] context.Background "203.0.113.10:8443"))
                (snd (withDialOverride [] context.Background "203.0.113.10:8443"))
                "tcp" "example.com:443").
  vm_compute in H. discriminate H.
Qed.

(** A carried bare host is dialed bare: the dialer adds no port. *)
Example dialer_bare_host_override :
  sharedTransport_DialContext (fun _ _ => net.Silent)
    (fst (withDialOverride [] context.Background "203.0.113.10"))
    (snd (withDialOverride [] context.Background "203.0.113.10"))
    "tcp" "example.com:443"
  = net.DialFailed net.IOTimeout "203.0.113.10" 500000000%Z.
Proof. reflexivity. Qed.

(** Addresses the dialer refuses before it connects. *)
Example malformed_addresses :
  wellFormedAddr "203.0.113.10" = false
  /\ wellFormedAddr "203.0.113.10:99999" = false
  /\ wellFormedAddr "[203.0.113.10:80" = false
  /\ wellFormedAddr "[2001:db8::7]:443" = true.
Proof. repeat split; reflexivity. Qed.


(** ** Fetch Executor: the round trip and the exit paths *)

Lemma NewRequest_inv parse method urlStr r :
  http.NewRequest parse method urlStr = inl r ->
  exists u, parse urlStr = inl u
    /\ r = {| http.Method := method;
              http.URL := {| Scheme := Scheme u;
                             Host := http.removeEmptyPort (Host u);
                             Path := Path u |};
              http.Host := http.removeEmptyPort (Host u);
              http.ctx := context.Background |}.
Proof.
  unfold http.NewRequest. destruct (parse urlStr) as [u|]; [|discriminate].
  intros [= <-]. now exists u.
Qed.

Lemma removeEmptyPort_nonempty (h : string) :
  fst (splitHostPort h) <> "" -> http.removeEmptyPort h <> "".
Proof.
  unfold http.removeEmptyPort, strings.TrimSuffixByte.
  destruct h as [|a [|b r]].
  - intros N. now elim N.
  - simpl. destruct (Ascii.eqb_spec a ":") as [->|]; [|discriminate].
    intros N. now elim N.
  - intros _. destruct (strings.HasSuffixByte _ _); discriminate.
Qed.

Lemma removeEmptyPort_id (h : string) :
  strings.HasSuffixByte h ":" = false -> http.removeEmptyPort h = h.
Proof. unfold http.removeEmptyPort, strings.TrimSuffixByte. now intros ->. Qed.

Section Fetch.

Variable url_Parse : string -> URL + string.
Variable world : net.Network.

(** The request of a prepared run: built from the URL string alone. *)
Lemma prepared_request (args : list string) (p : Prepared) :
  prepare url_Parse args = Ret p ->
  exists u r,
    url_Parse (nth 1 args "") = inl u
    /\ host p = Hostname u
    /\ http.NewRequest url_Parse "GET" (nth 1 args "") = inl r
    /\ http.URL (req p) = http.URL r
    /\ http.Host (req p) = http.Host r
    /\ http.Method (req p) = "GET"
    /\ http.URL r = {| Scheme := Scheme u;
                       Host := http.removeEmptyPort (Host u);
                       Path := Path u |}
    /\ http.Host r = http.removeEmptyPort (Host u)
    /\ http.removeEmptyPort (Host u) <> "".
Proof.
  intros H.
  destruct (prepare_inv _ _ _ H) as (u & r & EP & NH & _ & Hh & _ & ER & EA).
  destruct (NewRequest_inv _ _ _ _ ER) as (u' & EP' & Er).
  rewrite EP in EP'. injection EP' as <-.
  assert (E : req p = snd (attachOverride (ipArg args) (dialAddr p) r))
    by (rewrite <- EA; reflexivity).
  pose proof (attachOverride_frame (ipArg args) (dialAddr p) r) as F.
  cbv zeta in F. rewrite <- E in F. destruct F as (M & U & Hst & _).
  exists u, r.
  split; [exact EP|]. split; [exact Hh|]. split; [exact ER|].
  split; [exact U|]. split; [exact Hst|].
  rewrite M, Er. simpl. repeat split. now apply removeEmptyPort_nonempty.
Qed.


(** Without an override the transport dials the logical address, which
    for an ASCII host is the computed dial address. *)
Lemma roundtrip_without_override (args : list string) (p : Prepared) (u : URL) :
  prepare url_Parse args = Ret p ->
  ipArg args = "" ->
  url_Parse (nth 1 args "") = inl u ->
  isASCII (Host u) = true ->
  strings.HasSuffixByte (Host u) ":" = false ->
  Scheme u = "http" \/ Scheme u = "https" ->
  loggingTransport_RoundTrip world (sharedRoundTripper world) (heap p) (req p)
  = http.afterDial (sharedTransport world) (req p)
      (net.Dialer_DialContext world defaultDialer "tcp" (dialAddr p)).
Proof.
  intros H N EP _ T S.
  destruct (prepared_request _ _ H)
    as (u' & r & EP' & _ & _ & U & _ & _ & Ur & _ & NE).
  rewrite EP in EP'. injection EP' as <-.
  rewrite (removeEmptyPort_id _ T) in Ur, NE.
  pose proof (prepared_override _ _ _ H) as C. rewrite N in C. simpl in C.
  destruct (prepared_target _ _ _ H) as (u' & EP' & Hh & EPort).
  destruct (prepared_dialAddr _ _ _ H) as (_ & D & _).
  rewrite EP in EP'. injection EP' as <-.
  assert (A : http.canonicalAddr (http.URL (req p)) = dialAddr p).
  { rewrite (D N), Hh, U, Ur. unfold http.canonicalAddr, Hostname, Port. simpl.
    f_equal. fold (Port u).
    destruct (String.eqb_spec (Port u) "") as [E|NP].
    - rewrite (pickPort_default _ E) in EPort.
      destruct S as [S | S]; rewrite S in EPort |- *; simpl in EPort;
        injection EPort as <-; reflexivity.
    - rewrite (pickPort_explicit _ NP) in EPort. congruence. }
  unfold loggingTransport_RoundTrip, sharedRoundTripper, http.Transport_RoundTrip.
  simpl. rewrite U, Ur. simpl.
  replace (negb ((Scheme u =? "http") || (Scheme u =? "https"))) with false
    by (destruct S as [-> | ->]; reflexivity).
  replace (Host u =? "") with false
    by (symmetry; apply String.eqb_neq; exact NE).
  rewrite <- Ur, <- U, A. unfold http.dial. simpl.
  rewrite DialContext_absent; [reflexivity | now rewrite C].
Qed.


(** C5, the read-failure path: once a response is there, a failing body
    read ends the process through [log.Fatalf]; the body is not closed
    and the idle connections are not closed. *)
Theorem read_failure_skips_release
    (args : list string) (p : Prepared) (resp : net.Response) (err : string) :
  prepare url_Parse args = Ret p ->
  loggingTransport_RoundTrip world (sharedRoundTripper world) (heap p) (req p)
  = http.RTResponse resp ->
  io.ReadAll resp = inr err ->
  main url_Parse world args = Exited [Stderr (ReadFailed err)] 1
  /\ ~ In BodyClose (eventsOf (main url_Parse world args))
  /\ ~ In CloseIdleConnections (eventsOf (main url_Parse world args)).
Proof.
  intros H R E.
  assert (M : main url_Parse world args = Exited [Stderr (ReadFailed err)] 1).
  { unfold main. rewrite H. unfold fetch. rewrite R, E. reflexivity. }
  rewrite M. simpl. repeat split; intros [F|[]]; discriminate F.
Qed.

(** The successful path releases both, idle connections first. *)
Lemma success_releases
    (args : list string) (p : Prepared) (resp : net.Response) (body : string) :
  prepare url_Parse args = Ret p ->
  loggingTransport_RoundTrip world (sharedRoundTripper world) (heap p) (req p)
  = http.RTResponse resp ->
  io.ReadAll resp = inl body ->
  exists out,
    main url_Parse world args
    = Exited (out ++ [CloseIdleConnections; BodyClose]) 0.
Proof.
  intros H R E. unfold main. rewrite H. unfold fetch. rewrite R, E.
  unfold return_. eexists. reflexivity.
Qed.


End Fetch.


Lemma read_failure_skips_release_witness :
  main parseScenario lab ["gotest"; "http://example.com/"; "203.0.113.20"]
  = Exited [Stderr (ReadFailed "unexpected EOF")] 1
  /\ ~ In BodyClose
        (eventsOf (main parseScenario lab
                     ["gotest"; "http://example.com/"; "203.0.113.20"])).
Proof.
  destruct (read_failure_skips_release parseScenario lab
              ["gotest"; "http://example.com/"; "203.0.113.20"] _
              brokenResponse "unexpected EOF" eq_refl eq_refl eq_refl)
    as (A & B & _).
  split; [exact A | exact B].
Defined.

(** * Further properties of the program *)

(** ** Argument and input validation *)

Section Validation.

Variable url_Parse : string -> URL + string.
Variable world : net.Network.

(** X1: with the program name alone, or with more than two arguments after
    it, [main] prints the usage line and exits with code 1; the parser and
    the network are not consulted. *)
Theorem usage_exit (args : list string) :
  List.length args = 1%nat \/ (3 < List.length args)%nat ->
  main url_Parse world args = Exited [Stderr (Usage (nth 0 args ""))] 1.
Proof.
  intros L. unfold main, prepare.
  replace ((List.length args <? 2)%nat || (3 <? List.length args)%nat) with true.
  - reflexivity.
  - symmetry. apply orb_true_iff.
    destruct L as [L | L]; [left; rewrite L; reflexivity | right].
    now apply Nat.ltb_lt.
Qed.

(** X2: the input is validated in a fixed order, before any network
    activity and whatever the override: a URL that does not parse ends the
    run with the parse error; a parsed URL without host ends it with the
    missing-host error naming the URL string, even when its scheme is
    unknown too; only then is an unknown scheme without port reported, with
    the scheme as written. *)
Theorem validation_order (args : list string) :
  (2 <= List.length args <= 3)%nat ->
  (forall err, url_Parse (nth 1 args "") = inr err ->
     main url_Parse world args = Exited [Stderr (ParsingURLFailed err)] 1)
  /\ (forall u, url_Parse (nth 1 args "") = inl u -> Hostname u = "" ->
     main url_Parse world args
     = Exited [Stderr (URLMissingHost (nth 1 args ""))] 1)
  /\ (forall u, url_Parse (nth 1 args "") = inl u -> Hostname u <> "" ->
     Port u = "" ->
     strings.ToLower (Scheme u) <> "https" ->
     strings.ToLower (Scheme u) <> "http" ->
     main url_Parse world args = Exited [Stderr (UnknownScheme (Scheme u))] 1).
Proof.
  intros L.
  assert (G : (List.length args <? 2)%nat || (3 <? List.length args)%nat = false)
    by (apply orb_false_iff; split; apply Nat.ltb_ge; lia).
  split; [|split].
  - intros err E. unfold main, prepare. rewrite G, E. reflexivity.
  - intros u E Hh. unfold main, prepare. rewrite G, E, Hh. reflexivity.
  - intros u E Hh P N1 N2. unfold main, prepare. rewrite G, E.
    destruct (String.eqb_spec (Hostname u) ""); [contradiction|].
    rewrite (pickPort_default _ P).
    destruct (String.eqb_spec (strings.ToLower (Scheme u)) "https"); [contradiction|].
    destruct (String.eqb_spec (strings.ToLower (Scheme u)) "http"); [contradiction|].
    reflexivity.
Qed.

(** X3: building the request never fails: [main] has parsed the same URL
    string before, so the "building request failed" exit is never taken,
    and a run whose URL parses, has a host and resolves to a port always
    reaches the transport. *)
Theorem request_build_never_fails (args : list string) :
  (forall err, prepare url_Parse args <> Fatalf (BuildingRequestFailed err))
  /\ (forall u pt,
        (2 <= List.length args <= 3)%nat ->
        url_Parse (nth 1 args "") = inl u ->
        Hostname u <> "" ->
        pickPort u = Ret pt ->
        exists p, prepare url_Parse args = Ret p
                  /\ host p = Hostname u /\ port p = pt
                  /\ http.Method (req p) = "GET").
Proof.
  split.
  - intros err. unfold prepare.
    destruct (_ || _); [discriminate|].
    destruct (url_Parse (nth 1 args "")) as [u|e] eqn:EP; [|discriminate].
    destruct (Hostname u =? ""); [discriminate|].
    destruct (pickPort u) as [pt|e] eqn:EPort; simpl.
    + unfold http.NewRequest. rewrite EP.
      destruct (attachOverride _ _ _). discriminate.
    + unfold pickPort in EPort.
      destruct (negb (Port u =? "")); [discriminate|].
      destruct (_ =? "https"); [discriminate|].
      destruct (_ =? "http"); [discriminate|].
      injection EPort as <-. discriminate.
  - intros u pt L EP NH EPort.
    assert (ER : exists r, http.NewRequest url_Parse "GET" (nth 1 args "") = inl r
                           /\ http.Method r = "GET").
    { unfold http.NewRequest. rewrite EP. eexists. split; reflexivity. }
    destruct ER as (r & ER & M).
    eexists. split; [apply (prepare_run url_Parse args u pt r); assumption|].
    simpl. repeat split.
    destruct (attachOverride_frame (ipArg args)
                (net.JoinHostPort
                   (if negb (ipArg args =? "") then ipArg args else Hostname u) pt) r)
      as (M' & _).
    now rewrite M'.
Qed.

End Validation.

Lemma usage_exit_witness :
  main parseMore mirrored ["gotest"]
  = Exited [Stderr (Usage "gotest")] 1
  /\ main parseMore mirrored ["gotest"; "http://example.com/"; "203.0.113.10"; "x"]
     = Exited [Stderr (Usage "gotest")] 1.
Proof.
  split.
  - apply (usage_exit parseMore mirrored ["gotest"]). left. reflexivity.
  - apply (usage_exit parseMore mirrored
             ["gotest"; "http://example.com/"; "203.0.113.10"; "x"]).
    right. simpl. lia.
Defined.

Lemma validation_order_witness :
  main parseMore mirrored ["gotest"; "://example.com"; "203.0.113.10"]
  = Exited [Stderr (ParsingURLFailed "missing protocol scheme")] 1
  /\ main parseMore mirrored ["gotest"; "ftp:///pub"]
     = Exited [Stderr (URLMissingHost "ftp:///pub")] 1
  /\ main parseMore mirrored ["gotest"; "ftp://example.com/pub"; "203.0.113.10"]
     = Exited [Stderr (UnknownScheme "ftp")] 1.
Proof.
  split; [|split].
  - refine (proj1 (validation_order parseMore mirrored
                     ["gotest"; "://example.com"; "203.0.113.10"] _) _ eq_refl).
    simpl. lia.
  - refine (proj1 (proj2 (validation_order parseMore mirrored
                            ["gotest"; "ftp:///pub"] _)) _ eq_refl eq_refl).
    simpl. lia.
  - refine (proj2 (proj2 (validation_order parseMore mirrored
                            ["gotest"; "ftp://example.com/pub"; "203.0.113.10"] _))
                  _ eq_refl _ eq_refl _ _).
    + simpl. lia.
    + vm_compute. discriminate.
    + vm_compute. discriminate.
    + vm_compute. discriminate.
Defined.

Lemma request_build_never_fails_witness :
  exists p,
    prepare parseMore ["gotest"; "ftp://example.com:2121/pub"; "203.0.113.10"] = Ret p
    /\ host p = "example.com" /\ port p = "2121".
Proof.
  destruct (request_build_never_fails parseMore
              ["gotest"; "ftp://example.com:2121/pub"; "203.0.113.10"]) as [_ F].
  destruct (F {| Scheme := "ftp"; Host := "example.com:2121"; Path := "/pub" |}
              "2121") as (p & H & Hh & Hp & _).
  - simpl. lia.
  - reflexivity.
  - vm_compute. discriminate.
  - reflexivity.
  - exists p. split; [exact H|]. split; [exact Hh | exact Hp].
Defined.

(** ** The round trip through the shared transport *)

Lemma printHeaders_stdout (h : list (string * list string)) :
  forallb isStdout (printHeaders h) = true.
Proof.
  unfold printHeaders. induction h as [|[k vals] h IH]; simpl; [reflexivity|].
  rewrite forallb_app, IH, andb_true_r.
  induction vals as [|v vals IHv]; simpl; [reflexivity | exact IHv].
Qed.

Section RoundTrip.

Variable url_Parse : string -> URL + string.

(** The round trip of [sharedRoundTripper], step by step. *)
Lemma shared_roundtrip (world : net.Network) hp (rq : http.Request) :
  loggingTransport_RoundTrip world (sharedRoundTripper world) hp rq
  = if negb ((Scheme (http.URL rq) =? "http") || (Scheme (http.URL rq) =? "https"))
    then http.RTError (http.UnsupportedProtocolScheme (Scheme (http.URL rq)))
    else if Host (http.URL rq) =? "" then http.RTError http.NoHostInRequestURL
    else http.afterDial (sharedTransport world) rq
           (net.Dialer_DialContext world defaultDialer "tcp" (dialedAddress hp rq)).
Proof.
  unfold loggingTransport_RoundTrip, sharedRoundTripper, http.Transport_RoundTrip.
  simpl. destruct (negb _); [reflexivity|].
  destruct (Host (http.URL rq) =? ""); [reflexivity|].
  unfold http.dial, dialedAddress. simpl. unfold sharedTransport_DialContext.
  destruct (dialOverrideFromContext hp (http.ctx rq)) as [o ok]. reflexivity.
Qed.

(** The transports of two networks treat a dial outcome alike. *)
Lemma afterDial_shared (w1 w2 : net.Network) rq d :
  http.afterDial (sharedTransport w1) rq d = http.afterDial (sharedTransport w2) rq d.
Proof. reflexivity. Qed.

(** After the dial only method, URL and Host of the request matter. *)
Lemma afterDial_frame (t : http.Transport) (r1 r2 : http.Request) d :
  http.Method r1 = http.Method r2 ->
  http.URL r1 = http.URL r2 ->
  http.Host r1 = http.Host r2 ->
  http.afterDial t r1 d = http.afterDial t r2 d.
Proof. unfold http.afterDial. now intros -> -> ->. Qed.

(** The dialer of the program never blocks, and what it answers depends on
    the endpoint only apart from the address it reports. *)
Lemma defaultDialer_returns (world : net.Network) network addr :
  net.Dialer_DialContext world defaultDialer network addr <> net.DialBlocked.
Proof.
  unfold net.Dialer_DialContext.
  destruct (world network addr) as [|after|after srv]; simpl.
  - discriminate.
  - destruct (net.expired defaultDialer after); discriminate.
  - destruct (net.expired defaultDialer after); discriminate.
Qed.

Lemma sameUpToHeaderOrder_refl (o : Outcome) : sameUpToHeaderOrder o o.
Proof.
  destruct o as [events code|events]; [|constructor].
  replace events with (events ++ [] ++ [])%list by (simpl; apply app_nil_r).
  apply same_exited; [reflexivity | constructor].
Qed.

(** X4: a run of a process started with at least its name in [os.Args]
    that exits does so in one of two ways.  Either with code 1 after
    exactly one diagnostic on standard error, with nothing written to
    standard output and nothing released; or with code 0 after writing to
    standard output only, its last two actions being to close the idle
    connections and then to close the body.  There is no partial output
    before a failure and no exit with code 0 without both releases. *)
Theorem main_exit_shape (world : net.Network) (args : list string)
    (events : list Event) (code : nat) :
  args <> [] ->
  main url_Parse world args = Exited events code ->
  (code = 1 /\ exists e, events = [Stderr e])
  \/ (code = 0
      /\ exists out : list Event,
           events = (out ++ [CloseIdleConnections; BodyClose])%list
           /\ forallb isStdout out = true).
Proof.
  intros _. unfold main, fetch, log_Fatalf, return_.
  destruct (prepare url_Parse args) as [p|e].
  2:{ intros [= <- <-]. left. split; [reflexivity | now exists e]. }
  destruct (loggingTransport_RoundTrip world (sharedRoundTripper world)
              (heap p) (req p)) as [resp|err|]; [| | discriminate].
  - destruct (io.ReadAll resp) as [body|err].
    + intros [= <- <-]. right. split; [reflexivity|].
      exists ([Stdout (StatusLine (net.Status resp));
               Stdout (ProtocolLine (net.Proto resp));
               Stdout HeadersLine]
              ++ printHeaders (net.Header resp)
              ++ [Stdout (BodyLengthLine (String.length body))])%list.
      split; [reflexivity|].
      simpl. rewrite forallb_app, printHeaders_stdout. reflexivity.
    + intros [= <- <-]. left. split; [reflexivity | eexists; reflexivity].
  - intros [= <- <-]. left. split; [reflexivity | eexists; reflexivity].
Qed.

(** X5: the outcome of a run depends on the network through one endpoint
    only: the one at the address handed to the dialer.  With an override
    that is the dial address, and no other address is contacted, the URL's
    own host included; without one, and for an ASCII host, it is the
    logical address of the URL.  Two networks that agree there give the
    same run, up to the order of the header lines. *)
Theorem single_endpoint (w1 w2 : net.Network) (args : list string) (p : Prepared) :
  prepare url_Parse args = Ret p ->
  ipArg args <> "" \/ isASCII (Host (http.URL (req p))) = true ->
  w1 "tcp" (dialedAddress (heap p) (req p))
  = w2 "tcp" (dialedAddress (heap p) (req p)) ->
  sameUpToHeaderOrder (main url_Parse w1 args) (main url_Parse w2 args)
  /\ dialedAddress (heap p) (req p)
     = if negb (ipArg args =? "") then dialAddr p
       else http.canonicalAddr (http.URL (req p)).
Proof.
  intros H _ E. split.
  - assert (M : main url_Parse w1 args = main url_Parse w2 args).
    { unfold main. rewrite H. unfold fetch. rewrite !shared_roundtrip.
      unfold net.Dialer_DialContext. rewrite E.
      now rewrite (afterDial_shared w1 w2). }
    rewrite M. apply sameUpToHeaderOrder_refl.
  - unfold dialedAddress. rewrite (prepared_override _ _ _ H).
    destruct (negb (ipArg args =? "")); reflexivity.
Qed.

(** X6: the override is transparent.  When the dial address of the run with
    override and, for an ASCII host, the logical address of the run without
    lead to the same server, each within the dial timeout, the two runs end
    alike: same exit code and same output, up to the order of the header
    lines. *)
Theorem override_transparent (world : net.Network) (prog urlStr ip : string)
    (p0 p1 : Prepared) (a0 a1 : time.Duration) (srv : net.Server) :
  prepare url_Parse [prog; urlStr] = Ret p0 ->
  prepare url_Parse [prog; urlStr; ip] = Ret p1 ->
  ip <> "" ->
  isASCII (Host (http.URL (req p0))) = true ->
  world "tcp" (http.canonicalAddr (http.URL (req p0))) = net.Accepts a0 srv ->
  world "tcp" (dialAddr p1) = net.Accepts a1 srv ->
  (a0 < 500 * time.Millisecond)%Z ->
  (a1 < 500 * time.Millisecond)%Z ->
  sameUpToHeaderOrder (main url_Parse world [prog; urlStr; ip])
                      (main url_Parse world [prog; urlStr]).
Proof.
  intros H0 H1 N _ W0 W1 A0 A1.
  cut (main url_Parse world [prog; urlStr; ip] = main url_Parse world [prog; urlStr]);
    [intros ->; apply sameUpToHeaderOrder_refl|].
  destruct (prepared_request _ _ _ H0) as (u & r & EP & _ & ER & U0 & Hs0 & M0 & _).
  destruct (prepared_request _ _ _ H1) as (u' & r' & _ & _ & ER' & U1 & Hs1 & M1 & _).
  simpl in ER, ER'. rewrite ER in ER'. injection ER' as <-.
  pose proof (prepared_override _ _ _ H0) as C0.
  pose proof (prepared_override _ _ _ H1) as C1.
  change (ipArg [prog; urlStr]) with "" in C0.
  change (ipArg [prog; urlStr; ip]) with ip in C1.
  destruct (String.eqb_spec ip ""); [contradiction|]. simpl in C0, C1.
  unfold main. rewrite H0, H1. unfold fetch. rewrite !shared_roundtrip.
  unfold dialedAddress. rewrite C0, C1. simpl.
  rewrite U1, <- U0. unfold net.Dialer_DialContext, net.expired.
  rewrite W0, W1.
  replace (net.Timeout defaultDialer <=? a0)%Z with false
    by (symmetry; apply Z.leb_gt; exact A0).
  replace (net.Timeout defaultDialer <=? a1)%Z with false
    by (symmetry; apply Z.leb_gt; exact A1).
  rewrite !andb_false_r.
  assert (F : forall c0 c1 t0 t1,
            net.peer c0 = net.peer c1 ->
            http.afterDial (sharedTransport world) (req p1) (net.Connected c1 t1)
            = http.afterDial (sharedTransport world) (req p0) (net.Connected c0 t0)).
  { intros c0 c1 t0 t1 Ep. unfold http.afterDial.
    rewrite U0, U1, Hs0, Hs1, M0, M1, Ep. reflexivity. }
  destruct (negb _); [reflexivity|].
  destruct (_ =? ""); [reflexivity|].
  rewrite (F {| net.RemoteAddr := http.canonicalAddr (http.URL (req p0));
                net.peer := srv |}
             {| net.RemoteAddr := dialAddr p1; net.peer := srv |} a0 a1 eq_refl).
  reflexivity.
Qed.

(** X7: a URL with a scheme other than http and https passes the target
    resolution when it names a port, and is then refused by the transport:
    the run ends with the unsupported-scheme error before any dial,
    whatever the network and the override. *)
Theorem unsupported_scheme_rejected (world : net.Network) (args : list string) (u : URL) :
  (2 <= List.length args <= 3)%nat ->
  url_Parse (nth 1 args "") = inl u ->
  Hostname u <> "" ->
  Port u <> "" ->
  Scheme u <> "http" ->
  Scheme u <> "https" ->
  main url_Parse world args
  = Exited [Stderr (RequestFailed (http.UnsupportedProtocolScheme (Scheme u)))] 1.
Proof.
  intros L EP NH NP S1 S2.
  assert (ER : http.NewRequest url_Parse "GET" (nth 1 args "")
               = inl {| http.Method := "GET";
                        http.URL := {| Scheme := Scheme u;
                                       Host := http.removeEmptyPort (Host u);
                                       Path := Path u |};
                        http.Host := http.removeEmptyPort (Host u);
                        http.ctx := context.Background |})
    by (unfold http.NewRequest; rewrite EP; reflexivity).
  unfold main.
  rewrite (prepare_run url_Parse args u (Port u) _ L EP NH (pickPort_explicit _ NP) ER).
  unfold fetch. rewrite shared_roundtrip. simpl.
  match goal with
  | |- context [attachOverride ?i ?d ?r] =>
      destruct (attachOverride_frame i d r) as (_ & Ur & _)
  end.
  rewrite Ur. simpl.
  destruct (String.eqb_spec (Scheme u) "http"); [contradiction|].
  destruct (String.eqb_spec (Scheme u) "https"); [contradiction|].
  reflexivity.
Qed.




End RoundTrip.

Lemma main_exit_shape_witness :
  exists out : list Event,
    main parseMore mirrored ["gotest"; "http://example.com/"]
    = Exited (out ++ [CloseIdleConnections; BodyClose])%list 0
    /\ forallb isStdout out = true.
Proof.
  assert (M : main parseMore mirrored ["gotest"; "http://example.com/"]
              = Exited [Stdout (StatusLine "200 OK");
                        Stdout (ProtocolLine "HTTP/1.1");
                        Stdout HeadersLine;
                        Stdout (HeaderLine "Set-Cookie" "a=1");
                        Stdout (HeaderLine "Set-Cookie" "b=2");
                        Stdout (HeaderLine "Content-Type" "text/html");
                        Stdout (BodyLengthLine 13);
                        CloseIdleConnections; BodyClose] 0)
    by (vm_compute; reflexivity).
  destruct (main_exit_shape parseMore mirrored
              ["gotest"; "http://example.com/"] _ _ ltac:(discriminate) M)
    as [[C _] | [_ (out & E & F)]]; [discriminate C|].
  exists out. split; [rewrite M, E; reflexivity | exact F].
Defined.

Lemma single_endpoint_witness :
  sameUpToHeaderOrder
    (main parseScenario lab ["gotest"; "http://example.com/"; "203.0.113.10"])
    (main parseScenario
       (fun network addr =>
          if addr =? "203.0.113.10:80" then lab network addr else net.Silent)
       ["gotest"; "http://example.com/"; "203.0.113.10"]).
Proof.
  refine (proj1 (single_endpoint parseScenario lab _
                   ["gotest"; "http://example.com/"; "203.0.113.10"] _
                   eq_refl _ _)).
  - left. vm_compute. discriminate.
  - reflexivity.
Defined.

Lemma override_transparent_witness :
  sameUpToHeaderOrder
    (main parseMore mirrored ["gotest"; "http://example.com/"; "203.0.113.10"])
    (main parseMore mirrored ["gotest"; "http://example.com/"]).
Proof.
  apply (override_transparent parseMore mirrored
           "gotest" "http://example.com/" "203.0.113.10" _ _
           30000000%Z 2000000%Z richServer eq_refl eq_refl).
  - discriminate.
  - reflexivity.
  - reflexivity.
  - reflexivity.
  - reflexivity.
  - reflexivity.
Defined.

Lemma unsupported_scheme_rejected_witness :
  main parseMore mirrored ["gotest"; "ftp://example.com:2121/pub"; "203.0.113.10"]
  = Exited [Stderr (RequestFailed (http.UnsupportedProtocolScheme "ftp"))] 1.
Proof.
  apply (unsupported_scheme_rejected parseMore mirrored
           ["gotest"; "ftp://example.com:2121/pub"; "203.0.113.10"]
           {| Scheme := "ftp"; Host := "example.com:2121"; Path := "/pub" |}).
  - simpl. lia.
  - reflexivity.
  - vm_compute. discriminate.
  - vm_compute. discriminate.
  - discriminate.
  - discriminate.
Defined.



(** ** Output *)

(** X11: the header lines printed are exactly the pairs of a header name
    and one of its values: every value of every name gives a line, a name
    without values gives none, and there are as many lines as values. *)
Theorem printHeaders_lines (h : list (string * list string)) :
  (forall k v,
     In (Stdout (HeaderLine k v)) (printHeaders h)
     <-> exists vals, In (k, vals) h /\ In v vals)
  /\ List.length (printHeaders h)
     = list_sum (map (fun kv => List.length (snd kv)) h).
Proof.
  split.
  - intros k v. unfold printHeaders. rewrite in_flat_map. split.
    + intros ([k' vals] & Hin & Hm). simpl in Hm.
      apply in_map_iff in Hm as (v' & E & Hv). injection E as -> ->.
      now exists vals.
    + intros (vals & Hin & Hv). exists (k, vals). split; [exact Hin|].
      simpl. apply in_map_iff. now exists v.
  - unfold printHeaders. induction h as [|[k vals] h IH]; simpl; [reflexivity|].
    now rewrite length_app, length_map, IH.
Qed.

(** ** Addresses *)

Lemma HasSuffixByte_snoc (s : string) (c : ascii) :
  strings.HasSuffixByte (s ++ String c "") c = true.
Proof.
  induction s as [|a s IH]; simpl; [apply Ascii.eqb_refl|].
  destruct (s ++ String c "") eqn:E; [destruct s; discriminate | exact IH].
Qed.

Lemma DropLast_snoc (s : string) (c : ascii) :
  strings.DropLast (s ++ String c "") = s.
Proof.
  induction s as [|a s IH]; simpl; [reflexivity|].
  destruct (s ++ String c "") eqn:E; [destruct s; discriminate|].
  now rewrite IH.
Qed.

Lemma stripBrackets_wrap (h : string) :
  url.stripBrackets ("[" ++ h ++ "]") = h.
Proof.
  unfold url.stripBrackets, strings.HasPrefix.
  change ("[" ++ h ++ "]") with (String "[" (h ++ "]")).
  assert (S : strings.HasSuffixByte (String "[" (h ++ "]")) "]" = true)
    by apply (HasSuffixByte_snoc (String "[" h) "]").
  rewrite S. simpl.
  replace (prefix "" (h ++ "]")) with true
    by (destruct (h ++ "]"); reflexivity).
  apply DropLast_snoc.
Qed.

(** Splitting a joined address gives host and port back, unless the host
    is a bracketed text without colon. *)
Lemma splitHostPort_JoinHostPort_both (h pt : string) :
  strings.allDigits pt = true ->
  strings.ContainsByte ":" h = true \/ bracketed h = false ->
  splitHostPort (net.JoinHostPort h pt) = (h, pt).
Proof.
  intros D B. unfold net.JoinHostPort, splitHostPort.
  destruct (strings.ContainsByte ":" h) eqn:C.
  - replace ("[" ++ h ++ "]:" ++ pt) with (("[" ++ h ++ "]") ++ String ":" pt)
      by (simpl; f_equal; now rewrite append_assoc).
    rewrite (CutLastByte_app _ _ _ (allDigits_no_colon _ D)).
    simpl url.validOptionalPort. rewrite D. simpl andb.
    now rewrite stripBrackets_wrap.
  - destruct B as [B | B]; [discriminate|].
    change (h ++ ":" ++ pt) with (h ++ String ":" pt).
    rewrite (CutLastByte_app _ _ _ (allDigits_no_colon _ D)).
    simpl url.validOptionalPort. rewrite D. simpl andb. simpl strings.DropFirst.
    unfold url.stripBrackets. unfold bracketed in B. now rewrite B.
Qed.

Section Addresses.

Variable url_Parse : string -> URL + string.

(** X12: the dial address splits back into what it was joined from: its
    host is the override (the URL's host without override) and its port is
    the Target's port.  The one exception is a dial host written in square
    brackets without a colon inside. *)
Theorem dialAddr_splits_back (args : list string) (p : Prepared) :
  prepare url_Parse args = Ret p ->
  let dialHost := if negb (ipArg args =? "") then ipArg args else host p in
  strings.ContainsByte ":" dialHost = true \/ bracketed dialHost = false ->
  splitHostPort (dialAddr p) = (dialHost, port p).
Proof.
  intros H dialHost B.
  destruct (prepare_inv _ _ _ H) as (u & r & _ & _ & EPort & Hh & Hd & _).
  rewrite Hd, <- Hh. fold dialHost.
  apply splitHostPort_JoinHostPort_both; [|exact B].
  apply (pickPort_allDigits _ _ EPort).
Qed.

End Addresses.

Lemma dialAddr_splits_back_witness :
  exists p,
    prepare parseMore ["gotest"; "https://example.com/"; "2001:db8::7"] = Ret p
    /\ dialAddr p = "[2001:db8::7]:443"
    /\ splitHostPort (dialAddr p) = ("2001:db8::7", "443").
Proof.
  eexists. split; [reflexivity|]. split; [reflexivity|].
  apply (dialAddr_splits_back parseMore
           ["gotest"; "https://example.com/"; "2001:db8::7"] _ eq_refl).
  left. reflexivity.
Defined.

(** A bracketed override without colon does not come back: the brackets
    are taken for those of an address literal. *)
Example bracketed_override_not_restored :
  exists p,
    prepare parseMore ["gotest"; "https://example.com/"; "[gw]"] = Ret p
    /\ dialAddr p = "[gw]:443"
    /\ splitHostPort (dialAddr p) = ("gw", "443").
Proof. eexists. repeat split; reflexivity. Qed.

(** X13: a resolved port consists of decimal digits only, and resolution is
    stable: the URL rewritten with its host and resolved port joined
    resolves to the same port under every scheme. *)
Theorem pickPort_stable (u : URL) (pt : string) :
  pickPort u = Ret pt ->
  strings.allDigits pt = true
  /\ forall scheme path,
       pickPort {| Scheme := scheme;
                   Host := net.JoinHostPort (Hostname u) pt;
                   Path := path |} = Ret pt.
Proof.
  intros H. destruct (pickPort_allDigits _ _ H) as [D NE].
  split; [exact D|]. intros scheme path.
  assert (P : Port {| Scheme := scheme;
                      Host := net.JoinHostPort (Hostname u) pt;
                      Path := path |} = pt)
    by (unfold Port; simpl; now apply splitHostPort_JoinHostPort).
  rewrite <- P at 2. apply pickPort_explicit. now rewrite P.
Qed.

Lemma pickPort_stable_witness :
  strings.allDigits "443" = true
  /\ pickPort {| Scheme := "gopher"; Host := "example.com:443"; Path := "/x" |}
     = Ret "443".
Proof.
  destruct (pickPort_stable
              {| Scheme := "https"; Host := "example.com"; Path := "/" |}
              "443" eq_refl) as [D F].
  split; [exact D | exact (F "gopher" "/x")].
Defined.

(** ** Derived contexts *)

(** X14: a context derived from a request's context under another key
    still carries the override: it reads the same value, and the dialer
    dials the same address for it. *)
Theorem override_inherited (hp : context.Heap) (c : context.Context)
    (n : nat) (v : any) :
  let hp' := fst (context.WithValue hp c (foreignKey n) v) in
  let c' := snd (context.WithValue hp c (foreignKey n) v) in
  dialOverrideFromContext hp' c' = dialOverrideFromContext hp c
  /\ (forall world network addr,
        sharedTransport_DialContext world hp' c' network addr
        = sharedTransport_DialContext world hp c network addr)
  /\ context.Value hp' c' (foreignKey n) = v.
Proof.
  intros hp' c'.
  assert (E : dialOverrideFromContext hp' c' = dialOverrideFromContext hp c).
  { unfold dialOverrideFromContext, hp', c'. simpl.
    now rewrite Nat.eqb_refl. }
  split; [exact E|]. split.
  - intros world network addr. unfold sharedTransport_DialContext. now rewrite E.
  - unfold hp', c'. simpl. now rewrite !Nat.eqb_refl.
Qed.

(** ** The address handed to the dialer *)

Section Dialed.

Variable url_Parse : string -> URL + string.

(** X15: the address handed to the dialer is the computed dial address:
    always with an override, and without one for an http or https URL whose
    host text is ASCII and does not end in a colon, where the logical
    address the transport derives from the request's URL is the Target's
    host and port joined. *)
Theorem dialed_is_dialAddr (args : list string) (p : Prepared) (u : URL) :
  prepare url_Parse args = Ret p ->
  url_Parse (nth 1 args "") = inl u ->
  ipArg args <> ""
  \/ (isASCII (Host u) = true
      /\ strings.HasSuffixByte (Host u) ":" = false
      /\ (Scheme u = "http" \/ Scheme u = "https")) ->
  dialedAddress (heap p) (req p) = dialAddr p.
Proof.
  intros H EP C. unfold dialedAddress. rewrite (prepared_override _ _ _ H).
  destruct (String.eqb_spec (ipArg args) "") as [E|N]; simpl; [|reflexivity].
  destruct C as [C | (_ & T & S)]; [contradiction|].
  destruct (prepared_request _ _ _ H)
    as (u' & r & EP' & _ & _ & U & _ & _ & Ur & _).
  rewrite EP in EP'. injection EP' as <-.
  rewrite (removeEmptyPort_id _ T) in Ur.
  destruct (prepared_target _ _ _ H) as (u' & EP' & Hh & EPort).
  rewrite EP in EP'. injection EP' as <-.
  destruct (prepared_dialAddr _ _ _ H) as (_ & D & _).
  rewrite (D E), Hh, U, Ur. unfold http.canonicalAddr, Hostname, Port. simpl.
  f_equal. fold (Port u).
  destruct (String.eqb_spec (Port u) "") as [E0|NP].
  - rewrite (pickPort_default _ E0) in EPort.
    destruct S as [S | S]; rewrite S in EPort |- *; simpl in EPort;
      injection EPort as <-; reflexivity.
  - rewrite (pickPort_explicit _ NP) in EPort. congruence.
Qed.

End Dialed.

Lemma dialed_is_dialAddr_witness :
  exists p,
    prepare parseMore ["gotest"; "https://example.com/"] = Ret p
    /\ dialedAddress (heap p) (req p) = "example.com:443".
Proof.
  eexists. split; [reflexivity|].
  apply (dialed_is_dialAddr parseMore ["gotest"; "https://example.com/"] _
           {| Scheme := "https"; Host := "example.com"; Path := "/" |}
           eq_refl eq_refl).
  right. split; [reflexivity|]. split; [reflexivity | right; reflexivity].
Defined.

